(** * The task dashboard pipeline of [app.py]

    A shallow embedding of [get_tasks_data] and of its date helpers, and the
    properties of the specification that hold (or fail) on it.

    Modelling choices, each taken from the source:
    - a [datetime] is the pair of its proleptic Gregorian day number
      ([toordinal()]) and its time of day in microseconds. All datetimes
      are naive, as [datetime.now()] is and as the backend's
      [YYYY-MM-DD HH:MM:SS] strings parse, so that [<] and [>=] are total.
      Day numbers are not capped at [datetime.max];
    - Python's [int] is [Z]; a [dict] with integer or string keys is a
      [gmap], a [set] of ids a [gset], and [list(ids)] its [elements]: the
      order of iteration is not modelled;
    - the JSON values that the backend returns are typed records, so that
      a missing key or a value of another type cannot occur;
    - [raise] is the [Raise] constructor of [result], carrying [str(e)];
    - the remote backend is a record of answers, one per request, and the
      requests sent are logged in a trace;
    - a [float] is a binary64 number of [SpecFloat], the standard
      library's specification of IEEE 754 arithmetic: [int / int] is the
      float nearest to the quotient, [*] is [SFmul], and [round] goes
      through the nearest decimal as CPython's does;
    - [datetime.fromisoformat] belongs to the Python runtime and is a
      parameter ([PyRuntime]);
    - the environment that the module reads its credentials from is a
      [gmap] from names to strings, as it is once [load_dotenv()] has run;
      the credentials themselves are left out of the requests;
    - the reply to a POST is an exception of [requests.post] or a response,
      of which [raise_for_status()] and [json()] are given;
    - [print] is left out. *)

From Stdlib Require Import ZArith Lia Ascii String QArith Qpower Qabs Lqa.
From Stdlib Require Import SpecFloat.
From stdpp Require Import base option list gmap strings pretty.

Local Open Scope string_scope.
Local Open Scope Z_scope.
Local Open Scope list_scope.

(** ** Dates and times *)

Record datetime := mk_datetime {
  toordinal : Z;      (* [d.toordinal()]: day 1 is 0001-01-01 *)
  time_of_day : Z     (* microseconds since midnight *)
}.

(** [_days_before_year], [_is_leap], [_days_before_month] and [_ymd2ord] of
    CPython's [datetime], used to write dates down as year, month, day. *)
Definition days_before_year (year : Z) : Z :=
  let y := year - 1 in y * 365 + y / 4 - y / 100 + y / 400.

Definition is_leap (year : Z) : bool :=
  (year mod 4 =? 0) && (negb (year mod 100 =? 0) || (year mod 400 =? 0)).

Definition days_before_month (year month : Z) : Z :=
  nth (Z.to_nat month) [0; 0; 31; 59; 90; 120; 151; 181; 212; 243; 273; 304; 334] 0
  + (if (2 <? month) && is_leap year then 1 else 0).

Definition ymd2ord (year month day : Z) : Z :=
  days_before_year year + days_before_month year month + day.

(** [datetime(year, month, day, hour, minute)]. *)
Definition at_time (year month day hour minute : Z) : datetime :=
  mk_datetime (ymd2ord year month day) ((hour * 60 + minute) * 60 * 1000000).

(** [d.weekday()]: Monday is 0, Sunday is 6. *)
Definition weekday_of_ordinal (n : Z) : Z := (n + 6) mod 7.
Definition weekday (d : datetime) : Z := weekday_of_ordinal (toordinal d).

(** [a < b] and [a >= b] on naive datetimes: by date, then by time. *)
Definition dt_ltb (a b : datetime) : bool :=
  (toordinal a <? toordinal b)
  || ((toordinal a =? toordinal b) && (time_of_day a <? time_of_day b)).
Definition dt_geb (a b : datetime) : bool := negb (dt_ltb a b).

(** [d + timedelta(days=n)]. *)
Definition add_days (d : datetime) (n : Z) : datetime :=
  mk_datetime (toordinal d + n) (time_of_day d).

(** The [while current_date < end_date] loop of [calculate_working_days].
    [fuel] bounds the number of iterations; [None] means it ran out. *)
Fixpoint working_days_loop (fuel : nat) (current_date end_date : datetime)
    (working_days : Z) : option Z :=
  if dt_ltb current_date end_date then
    match fuel with
    | O => None
    | S fuel' =>
        let working_days :=
          if weekday current_date <? 5 then working_days + 1 else working_days in
        working_days_loop fuel' (add_days current_date 1) end_date working_days
    end
  else Some working_days.

(** One iteration per day from the start date to the end date, both
    included, is always enough ([working_days_loop_terminates]). *)
Definition working_days_fuel (start_date end_date : datetime) : nat :=
  Z.to_nat (toordinal end_date - toordinal start_date + 1).

Definition calculate_working_days (start_date end_date : datetime) : Z :=
  if dt_geb start_date end_date then 0
  else default 0
         (working_days_loop (working_days_fuel start_date end_date)
            start_date end_date 0).

Definition calculate_calendar_days (start_date end_date : datetime) : Z :=
  if dt_geb start_date end_date then 0
  else toordinal end_date - toordinal start_date.

Definition is_today (date_to_check current_date : datetime) : bool :=
  toordinal date_to_check =? toordinal current_date.

Definition is_weekend (date_to_check : datetime) : bool :=
  5 <=? weekday date_to_check.

(** The specification's reading of working days: the weekdays (Monday to
    Friday) among the dates [lo], [lo + 1], ..., [hi - 1]. *)
Definition is_weekday (n : Z) : bool := weekday_of_ordinal n <? 5.
Definition weekdays_in (lo hi : Z) : Z :=
  Z.of_nat (length (filter (λ n, is_weekday n = true) (seqZ lo (hi - lo)))).

(** ** Exceptions *)

(** A computation that returns a value or raises an exception whose
    [str(e)] is [msg]. *)
Inductive result (A : Type) : Type :=
| Ok (a : A)
| Raise (msg : string).
Arguments Ok {A} a.
Arguments Raise {A} msg.

Definition result_bind {A B} (k : A → result B) (r : result A) : result B :=
  match r with
  | Ok a => k a
  | Raise msg => Raise msg
  end.

#[global] Instance result_mbind : MBind result := @result_bind.
#[global] Instance result_mret : MRet result := @Ok.

(** A [for] loop whose body may raise: the state after the last element, or
    the first exception. *)
Fixpoint for_each {A S} (body : S → A → result S) (l : list A) (st : S)
    : result S :=
  match l with
  | [] => Ok st
  | a :: l' => st' ← body st a; for_each body l' st'
  end.

(** ** The Python runtime *)

Class PyRuntime := {
  (* [datetime.fromisoformat], which raises [ValueError] on a malformed
     string *)
  fromisoformat : string → result datetime
}.

(** [s.replace('Z', '+00:00')]. *)
Fixpoint replace_Z (s : string) : string :=
  match s with
  | EmptyString => EmptyString
  | String c s' =>
      if Ascii.eqb c "Z"%char then "+00:00" +:+ replace_Z s'
      else String c (replace_Z s')
  end.

(** ** Floats *)

(** [sys.float_info.mant_dig] and [sys.float_info.max_exp]. *)
Definition mant_dig : Z := 53.
Definition max_exp : Z := 1024.

(** [float(n)]. *)
Definition float_of_int (n : Z) : spec_float :=
  binary_normalize mant_dig max_exp n 0 false.

(** [a / b] on ints, for a positive [b]: the float nearest to the
    quotient. *)
Definition true_divide (a : Z) (b : positive) : spec_float :=
  match a with
  | Z0 => S754_zero false
  | Zpos ma =>
      SFdiv mant_dig max_exp (S754_finite false ma 0) (S754_finite false b 0)
  | Zneg ma =>
      SFdiv mant_dig max_exp (S754_finite true ma 0) (S754_finite false b 0)
  end.

(** The integer nearest to [n / d], the even one of the two on a tie. *)
Definition round_half_even_div (n d : Z) : Z :=
  let q := n / d in
  match 2 * (n mod d) ?= d with
  | Lt => q
  | Gt => q + 1
  | Eq => if Z.even q then q else q + 1
  end.

(** [round(number, ndigits)] for a float and [ndigits >= 0]: CPython
    writes the exact value of [number] with [ndigits] decimals, rounding
    half to even, and reads the decimal back as the nearest float; an
    infinity, a nan and a zero are returned as they are. *)
Definition round (number : spec_float) (ndigits : nat) : spec_float :=
  match number with
  | S754_finite s m e =>
      let scale := 10 ^ Z.of_nat ndigits in
      let n := cond_Zopp s (Zpos m) * scale in
      let decimal :=
        if 0 <=? e then n * 2 ^ e else round_half_even_div n (2 ^ (- e)) in
      match decimal with
      | Z0 => S754_zero s
      | _ => true_divide decimal (Z.to_pos scale)
      end
  | _ => number
  end.

(** [round((count / total) * 100, 1)], for a positive [total]. *)
Definition percentage (count total : Z) : spec_float :=
  round
    (SFmul mant_dig max_exp (true_divide count (Z.to_pos total))
       (float_of_int 100)) 1.

(** ** The records of the backend *)

(** A many2one field is [False] ([None] here) or the pair [[id, name]]. *)
Definition many2one : Type := option (Z * string).

Module Task.
Record t := mk {
  id : Z;
  name : string;
  project_id : many2one;
  stage_id : many2one;
  date_deadline : option string;   (* [False] or the deadline's text *)
  user_ids : list Z;
  state : option string;
  is_closed : bool
}.
End Task.

Module Project.
Record t := mk {
  id : Z;
  name : string;
  user_id : many2one;              (* the manager *)
  stage_id : many2one
}.
End Project.

(** Users, task stages and project stages are read with the fields [id]
    and [name]. *)
Module Named.
Record t := mk {
  id : Z;
  name : string
}.
End Named.

(** ** The result of the pipeline *)

Module Processed.
Record t := mk {
  id : Z;
  name : string;
  project_name : string;
  manager : string;
  stage_id : option Z;
  stage_name : string;
  project_stage_id : option Z;
  project_stage_name : string;
  deadline : option string;
  assignees : list string;
  is_done : bool;
  is_cancelled : bool;
  is_overdue : bool;
  days_overdue : Z;
  calendar_days_to_deadline : Z;
  working_days_to_deadline : Z;
  is_deadline_today : bool;
  is_deadline_weekend : bool;
  task_state : option string;
  task_state_label : string
}.
End Processed.

Module Statistics.
Record t := mk {
  total : Z;
  done : Z;
  cancelled : Z;
  overdue : Z;
  in_progress : Z
}.
End Statistics.

(** An entry of [stage_stats]. *)
Module StageStats.
Record t := mk {
  total : Z;
  done : Z;
  overdue : Z;
  in_progress : Z;
  cancelled : Z
}.
End StageStats.

(** An entry of [stage_percentages]. *)
Module StagePercentages.
Record t := mk {
  total : Z;
  done_percentage : spec_float;
  overdue_percentage : spec_float;
  in_progress_percentage : spec_float;
  cancelled_percentage : spec_float;
  done_count : Z;
  overdue_count : Z;
  in_progress_count : Z;
  cancelled_count : Z
}.
End StagePercentages.

Module Response.
Record t := mk {
  tasks : list Processed.t;
  statistics : Statistics.t;
  stage_statistics : gmap string StagePercentages.t;
  error : option string            (* the key is absent on success *)
}.
End Response.

(** ** The credentials *)

(** The four module globals, each [os.getenv(name)]: [None] is an unset
    variable. *)
Record Credentials := {
  url : option string;
  db : option string;
  username : option string;
  api_key : option string
}.

(** [not value], for a value that is [None] or a string. *)
Definition falsy (value : option string) : bool :=
  match value with
  | Some s => bool_decide (s = "")
  | None => true
  end.

(** The code of the module that reads the credentials and validates them,
    on the environment [environ] as it is once [load_dotenv()] has run: the
    globals, or the [ValueError] that stops the import. *)
Definition load_credentials (environ : gmap string string)
    : result Credentials :=
  let url := environ !! "ODOO_URL" in
  let db := environ !! "ODOO_DB" in
  let username := environ !! "ODOO_USERNAME" in
  let api_key := environ !! "ODOO_API_KEY" in
  let missing_vars := [] in
  let missing_vars :=
    if falsy url then missing_vars ++ ["ODOO_URL"] else missing_vars in
  let missing_vars :=
    if falsy db then missing_vars ++ ["ODOO_DB"] else missing_vars in
  let missing_vars :=
    if falsy username then missing_vars ++ ["ODOO_USERNAME"]
    else missing_vars in
  let missing_vars :=
    if falsy api_key then missing_vars ++ ["ODOO_API_KEY"]
    else missing_vars in
  match missing_vars with
  | [] => Ok {| url := url; db := db; username := username;
                api_key := api_key |}
  | _ :: _ =>
      Raise ("Missing required environment variables: "
             +:+ String.concat ", " missing_vars)
  end.

(** ** The JSON-RPC client *)

(** A request sent to the endpoint: [authenticate] of the service [common],
    or [execute_kw] of the service [object] with the method [search_read]
    on [project.task] or [read] on [model] with the list [ids]. *)
Inductive request :=
| Authenticate
| SearchRead (uid : Z)
| Read (uid : Z) (model : string) (ids : list Z).

(** What one POST comes to, in the order [json_rpc] looks at it. *)
Inductive http (A : Type) : Type :=
| ConnectionFailed (msg : string)    (* [requests.post] raises *)
| HTTPError (msg : string)           (* [raise_for_status] raises *)
| JSONDecodeError (msg : string)     (* [response.json()] raises ValueError *)
| RpcError                           (* the body has an ['error'] member *)
| NoResult                           (* neither ['error'] nor ['result'] *)
| RpcResult (r : A).
Arguments ConnectionFailed {A} msg.
Arguments HTTPError {A} msg.
Arguments JSONDecodeError {A} msg.
Arguments RpcError {A}.
Arguments NoResult {A}.
Arguments RpcResult {A} r.

(** The backend: its answer to each request the pipeline can send. The
    user id it authenticates is [None] for [False]. *)
Record Remote := {
  authenticate : http (option Z);
  search_read_tasks : Z → http (list Task.t);
  read_projects : Z → list Z → http (list Project.t);
  read_users : Z → list Z → http (list Named.t);
  read_task_stages : Z → list Z → http (list Named.t);
  read_project_stages : Z → list Z → http (list Named.t)
}.

(** Computations that send requests and may raise. The trace holds the
    requests sent so far, the oldest first. *)
Definition rpc (A : Type) : Type := list request → result A * list request.

Definition rpc_bind {A B} (k : A → rpc B) (m : rpc A) : rpc B :=
  λ trace,
    match m trace with
    | (Ok a, trace') => k a trace'
    | (Raise msg, trace') => (Raise msg, trace')
    end.

#[global] Instance rpc_mbind : MBind rpc := @rpc_bind.
#[global] Instance rpc_mret : MRet rpc := λ A a trace, (Ok a, trace).

Definition lift {A} (r : result A) : rpc A := λ trace, (r, trace).

(** [json_rpc(endpoint, method, params)]: the request is sent, and its
    answer is returned or becomes the exception that [json_rpc] raises or
    lets through. *)
Definition json_rpc {A} (req : request) (response : http A) : rpc A :=
  λ trace,
    (match response with
     | ConnectionFailed msg => Raise msg
     | HTTPError msg => Raise msg
     | JSONDecodeError msg => Raise msg
     | RpcError => Raise "JSON-RPC call failed."
     | NoResult => Raise "'result'"
     | RpcResult r => Ok r
     end, trace ++ [req]).

(** ** The reply to a request *)

(** The response that [requests.post] returns, as [json_rpc] looks at it.
    The body is taken to be a JSON object; its members other than
    ['result'] matter by their presence only, so that all are given the
    type of the result. *)
Record reply (A : Type) := {
  (* the message of the [HTTPError] that [raise_for_status()] raises, on
     a status from 400 to 599; [None] on another status *)
  raise_for_status : option string;
  (* [response.json()]: the members of the body, or the [ValueError] of a
     body that is not JSON *)
  json : result (gmap string A)
}.
Arguments raise_for_status {A} _.
Arguments json {A} _.

(** The lines of [json_rpc] from the POST to the [return]: [posted] is
    what [requests.post] comes to, an exception or a response. *)
Definition read_reply {A} (posted : result (reply A)) : http A :=
  match posted with
  | Raise msg => ConnectionFailed msg
  | Ok response =>
      match raise_for_status response with
      | Some msg => HTTPError msg
      | None =>
          match json response with
          | Raise msg => JSONDecodeError msg
          | Ok data =>
              if decide (is_Some (data !! "error")) then RpcError
              else
                match data !! "result" with
                | Some r => RpcResult r
                | None => NoResult
                end
          end
      end
  end.

(** ** Steps 3 and 6b: the ids to read *)

(** The three sets after the loop over [tasks]. *)
Definition collect_ids (tasks : list Task.t) : gset Z * gset Z * gset Z :=
  fold_left
    (λ '(project_ids, user_ids, task_stage_ids) task,
       (match Task.project_id task with
        | Some (i, _) => project_ids ∪ {[i]}
        | None => project_ids
        end,
        user_ids ∪ list_to_set (Task.user_ids task),
        match Task.stage_id task with
        | Some (i, _) => task_stage_ids ∪ {[i]}
        | None => task_stage_ids
        end))
    tasks (∅, ∅, ∅).

Definition collect_project_stage_ids (projects : list Project.t) : gset Z :=
  fold_left
    (λ project_stage_ids proj,
       match Project.stage_id proj with
       | Some (i, _) => project_stage_ids ∪ {[i]}
       | None => project_stage_ids
       end)
    projects ∅.

(** ** Step 7: the lookup maps *)

(** A dict comprehension [{key(x): val(x) for x in l}]: a later element
    with the same key overwrites an earlier one. *)
Definition to_dict {A V} (key : A → Z) (val : A → V) (l : list A) : gmap Z V :=
  fold_left (λ m a, <[key a := val a]> m) l ∅.

(** [d.get(key, dflt)] where [key] may be [None], which is never a key of
    the dicts built from the ids of records. *)
Definition dict_get {V} (d : gmap Z V) (key : option Z) (dflt : V) : V :=
  default dflt (key ≫= (d !!.)).

Record Lookups := {
  project_managers : gmap Z string;
  project_names : gmap Z string;
  user_names : gmap Z string;
  task_stage_names : gmap Z string;
  project_stage_names : gmap Z string;
  project_stage_mapping : gmap Z (option Z)
}.

Definition build_lookups (projects : list Project.t)
    (users task_stages project_stages : list Named.t) : Lookups :=
  {| project_managers :=
       to_dict Project.id
         (λ proj, match Project.user_id proj with
                  | Some (_, manager_name) => manager_name
                  | None => "No Manager"
                  end) projects;
     project_names := to_dict Project.id Project.name projects;
     user_names := to_dict Named.id Named.name users;
     task_stage_names := to_dict Named.id Named.name task_stages;
     project_stage_names := to_dict Named.id Named.name project_stages;
     project_stage_mapping :=
       to_dict Project.id (λ proj, fst <$> Project.stage_id proj) projects |}.

(** The table of state labels. *)
Definition state_labels : gmap string string :=
  list_to_map
    [("01_in_progress", "In Progress");
     ("02_changes_requested", "Changes Requested");
     ("03_approved", "Approved");
     ("1_canceled", "Cancelled");
     ("1_done", "Done");
     ("04_waiting_normal", "Waiting")].

(** ** Step 8: one task *)

(** [datetime.fromisoformat(deadline.replace('Z', '+00:00')) if deadline
    else None]: [False] and the empty string are falsy. *)
Definition parse_deadline `{PyRuntime} (deadline : option string)
    : result (option datetime) :=
  match deadline with
  | Some s =>
      if bool_decide (s = "") then Ok None
      else deadline_dt ← fromisoformat (replace_Z s); Ok (Some deadline_dt)
  | None => Ok None
  end.

(** The six locals that the deadline decides, with their defaults. *)
Record Schedule := {
  is_overdue : bool;
  days_overdue : Z;
  calendar_days_to_deadline : Z;
  working_days_to_deadline : Z;
  is_deadline_today : bool;
  is_deadline_weekend : bool
}.

Definition schedule (is_done is_cancelled : bool)
    (deadline_dt : option datetime) (current_time : datetime) : Schedule :=
  match deadline_dt with
  | Some deadline_dt =>
      let is_deadline_today := is_today deadline_dt current_time in
      let is_deadline_weekend := is_weekend deadline_dt in
      if negb is_done && negb is_cancelled then
        if toordinal deadline_dt <? toordinal current_time then
          {| is_overdue := true;
             days_overdue := toordinal current_time - toordinal deadline_dt;
             calendar_days_to_deadline := 0;
             working_days_to_deadline := 0;
             is_deadline_today := is_deadline_today;
             is_deadline_weekend := is_deadline_weekend |}
        else
          {| is_overdue := false;
             days_overdue := 0;
             calendar_days_to_deadline :=
               calculate_calendar_days current_time deadline_dt;
             working_days_to_deadline :=
               calculate_working_days current_time deadline_dt;
             is_deadline_today := is_deadline_today;
             is_deadline_weekend := is_deadline_weekend |}
      else
        {| is_overdue := false;
           days_overdue := 0;
           calendar_days_to_deadline := 0;
           working_days_to_deadline := 0;
           is_deadline_today := is_deadline_today;
           is_deadline_weekend := is_deadline_weekend |}
  | None =>
      {| is_overdue := false;
         days_overdue := 0;
         calendar_days_to_deadline := 0;
         working_days_to_deadline := 0;
         is_deadline_today := false;
         is_deadline_weekend := false |}
  end.

(** The body of the loop over [tasks] up to the dict [processed_task]. *)
Definition process_task `{PyRuntime} (L : Lookups) (current_time : datetime)
    (task : Task.t) : result Processed.t :=
  let project_id := fst <$> Task.project_id task in
  let project_name := dict_get (project_names L) project_id "No Project" in
  let manager := dict_get (project_managers L) project_id "Unknown" in
  let task_stage_id := fst <$> Task.stage_id task in
  let task_stage_name :=
    dict_get (task_stage_names L) task_stage_id "No Stage" in
  let project_stage_id :=
    mjoin (project_id ≫= (project_stage_mapping L !!.)) in
  let project_stage_name :=
    dict_get (project_stage_names L) project_stage_id "No Project Stage" in
  let deadline := Task.date_deadline task in
  let assignees :=
    (λ uid, default ("User " +:+ pretty uid) (user_names L !! uid))
      <$> Task.user_ids task in
  let task_state := Task.state task in
  let is_done := Task.is_closed task in
  let is_cancelled := bool_decide (task_state = Some "1_canceled") in
  let task_state_label :=
    default "Unknown" (task_state ≫= (state_labels !!.)) in
  deadline_dt ← parse_deadline deadline;
  let s := schedule is_done is_cancelled deadline_dt current_time in
  Ok {| Processed.id := Task.id task;
        Processed.name := Task.name task;
        Processed.project_name := project_name;
        Processed.manager := manager;
        Processed.stage_id := task_stage_id;
        Processed.stage_name := task_stage_name;
        Processed.project_stage_id := project_stage_id;
        Processed.project_stage_name := project_stage_name;
        Processed.deadline := deadline;
        Processed.assignees := assignees;
        Processed.is_done := is_done;
        Processed.is_cancelled := is_cancelled;
        Processed.is_overdue := is_overdue s;
        Processed.days_overdue := days_overdue s;
        Processed.calendar_days_to_deadline := calendar_days_to_deadline s;
        Processed.working_days_to_deadline := working_days_to_deadline s;
        Processed.is_deadline_today := is_deadline_today s;
        Processed.is_deadline_weekend := is_deadline_weekend s;
        Processed.task_state := task_state;
        Processed.task_state_label := task_state_label |}.

(** The list and the three counters that the loop updates. *)
Record Tally := {
  processed_tasks : list Processed.t;
  done_count : Z;
  overdue_count : Z;
  cancelled_count : Z
}.

Definition empty_tally : Tally :=
  {| processed_tasks := []; done_count := 0; overdue_count := 0;
     cancelled_count := 0 |}.

(** One iteration: the task's dict, the [if]/[elif] chain on its flags, and
    the [append]. *)
Definition loop_body `{PyRuntime} (L : Lookups) (current_time : datetime)
    (st : Tally) (task : Task.t) : result Tally :=
  processed_task ← process_task L current_time task;
  let is_done := Processed.is_done processed_task in
  let is_cancelled := Processed.is_cancelled processed_task in
  let is_overdue := Processed.is_overdue processed_task in
  Ok {| processed_tasks := processed_tasks st ++ [processed_task];
        done_count :=
          if is_done then done_count st + 1 else done_count st;
        cancelled_count :=
          if is_done then cancelled_count st
          else if is_cancelled then cancelled_count st + 1
          else cancelled_count st;
        overdue_count :=
          if is_done then overdue_count st
          else if is_cancelled then overdue_count st
          else if is_overdue then overdue_count st + 1
          else overdue_count st |}.

(** ** Step 9: statistics by project stage *)

(** The entry of a stage once [task] is counted in it. *)
Definition count_stage_entry (stats : StageStats.t) (task : Processed.t)
    : StageStats.t :=
  let total := StageStats.total stats + 1 in
  let done := StageStats.done stats in
  let overdue := StageStats.overdue stats in
  let in_progress := StageStats.in_progress stats in
  let cancelled := StageStats.cancelled stats in
  if Processed.is_done task then
    StageStats.mk total (done + 1) overdue in_progress cancelled
  else if Processed.is_cancelled task then
    StageStats.mk total done overdue in_progress (cancelled + 1)
  else if Processed.is_overdue task then
    StageStats.mk total done (overdue + 1) in_progress cancelled
  else
    StageStats.mk total done overdue (in_progress + 1) cancelled.

(** One iteration of the loop over [processed_tasks]: a stage name seen
    for the first time starts from zeros. *)
Definition count_stage (stage_stats : gmap string StageStats.t)
    (task : Processed.t) : gmap string StageStats.t :=
  let project_stage_name := Processed.project_stage_name task in
  let stats :=
    default (StageStats.mk 0 0 0 0 0) (stage_stats !! project_stage_name) in
  <[project_stage_name := count_stage_entry stats task]> stage_stats.

(** The loop over [stage_stats.items()]: an entry whose total is not
    positive is left out. *)
Definition stage_percentages (stage_stats : gmap string StageStats.t)
    : gmap string StagePercentages.t :=
  omap
    (λ stats,
       let total := StageStats.total stats in
       if 0 <? total then
         Some {| StagePercentages.total := total;
                 StagePercentages.done_percentage :=
                   percentage (StageStats.done stats) total;
                 StagePercentages.overdue_percentage :=
                   percentage (StageStats.overdue stats) total;
                 StagePercentages.in_progress_percentage :=
                   percentage (StageStats.in_progress stats) total;
                 StagePercentages.cancelled_percentage :=
                   percentage (StageStats.cancelled stats) total;
                 StagePercentages.done_count := StageStats.done stats;
                 StagePercentages.overdue_count := StageStats.overdue stats;
                 StagePercentages.in_progress_count :=
                   StageStats.in_progress stats;
                 StagePercentages.cancelled_count :=
                   StageStats.cancelled stats |}
       else None)
    stage_stats.

(** ** Steps 7 to 9 *)

(** The lookups, the loop over the tasks, the statistics by stage and the
    dict that is returned. *)
Definition process `{PyRuntime} (tasks : list Task.t)
    (projects : list Project.t)
    (users task_stages project_stages : list Named.t)
    (current_time : datetime) : result Response.t :=
  let L := build_lookups projects users task_stages project_stages in
  st ← for_each (loop_body L current_time) tasks empty_tally;
  let processed_tasks := processed_tasks st in
  let stage_stats := fold_left count_stage processed_tasks ∅ in
  let len := Z.of_nat (length processed_tasks) in
  Ok {| Response.tasks := processed_tasks;
        Response.statistics :=
          {| Statistics.total := len;
             Statistics.done := done_count st;
             Statistics.cancelled := cancelled_count st;
             Statistics.overdue := overdue_count st;
             Statistics.in_progress :=
               len - done_count st - cancelled_count st - overdue_count st |};
        Response.stage_statistics := stage_percentages stage_stats;
        Response.error := None |}.

(** ** The entry point *)

(** Steps 3 to 6b: the reads of the records that the tasks refer to. *)
Definition fetch_related (remote : Remote) (uid : Z) (tasks : list Task.t)
    : rpc (list Project.t * list Named.t * list Named.t * list Named.t) :=
  let '(project_ids, user_ids, task_stage_ids) := collect_ids tasks in
  projects ←
    json_rpc (Read uid "project.project" (elements project_ids))
      (read_projects remote uid (elements project_ids));
  users ←
    json_rpc (Read uid "res.users" (elements user_ids))
      (read_users remote uid (elements user_ids));
  task_stages ←
    json_rpc (Read uid "project.task.type" (elements task_stage_ids))
      (read_task_stages remote uid (elements task_stage_ids));
  let project_stage_ids := collect_project_stage_ids projects in
  project_stages ←
    (if bool_decide (project_stage_ids = ∅) then mret []
     else
       json_rpc
         (Read uid "project.project.stage" (elements project_stage_ids))
         (read_project_stages remote uid (elements project_stage_ids)));
  mret (projects, users, task_stages, project_stages).

(** The body of the [try]. [current_time] is what [datetime.now()] returns
    once the reads are done. *)
Definition try_body `{PyRuntime} (remote : Remote) (current_time : datetime)
    : rpc Response.t :=
  uid ← json_rpc Authenticate (authenticate remote);
  match uid with
  | Some uid =>
      if uid =? 0 then lift (Raise "Failed to authenticate")
      else
        tasks ← json_rpc (SearchRead uid) (search_read_tasks remote uid);
        '(projects, users, task_stages, project_stages) ←
          fetch_related remote uid tasks;
        lift (process tasks projects users task_stages project_stages
                current_time)
  | None => lift (Raise "Failed to authenticate")
  end.

(** The dict returned by the [except] clause. *)
Definition error_response (e : string) : Response.t :=
  {| Response.tasks := [];
     Response.statistics :=
       {| Statistics.total := 0;
          Statistics.done := 0;
          Statistics.cancelled := 0;
          Statistics.overdue := 0;
          Statistics.in_progress := 0 |};
     Response.stage_statistics := ∅;
     Response.error := Some e |}.

(** [get_tasks_data()], with the requests it sent. *)
Definition get_tasks_data `{PyRuntime} (remote : Remote)
    (current_time : datetime) : Response.t * list request :=
  match try_body remote current_time [] with
  | (Ok data, trace) => (data, trace)
  | (Raise e, trace) => (error_response e, trace)
  end.

(** ** A runtime to run the pipeline on examples *)

(** The number that the decimal digits of [s] spell, if [s] has [len]
    characters and all are digits. *)
Definition digit (c : ascii) : option Z :=
  let n := Z.of_N (N_of_ascii c) - 48 in
  if (0 <=? n) && (n <=? 9) then Some n else None.

Definition digits (len : nat) (s : string) : option Z :=
  if Nat.eqb (String.length s) len then
    fold_left (λ acc c, n ← acc; d ← digit c; Some (n * 10 + d))
      (list_ascii_of_string s) (Some 0)
  else None.

Definition field (s : string) (start len : nat) : option Z :=
  digits len (substring start len s).

Definition char_at (s : string) (i : nat) (c : ascii) : bool :=
  match String.get i s with
  | Some c' => Ascii.eqb c c'
  | None => false
  end.

Definition days_in_month (year month : Z) : Z :=
  if month =? 12 then 31
  else days_before_month year (month + 1) - days_before_month year month.

(** [fromisoformat] on the two formats the backend writes, [YYYY-MM-DD] and
    [YYYY-MM-DD HH:MM:SS]; any other string is refused. *)
Definition iso_parse (s : string) : result datetime :=
  let invalid := Raise ("Invalid isoformat string: '" +:+ s +:+ "'") in
  match field s 0 4, field s 5 2, field s 8 2 with
  | Some y, Some m, Some d =>
      if char_at s 4 "-" && char_at s 7 "-"
         && (1 <=? y) && (1 <=? m) && (m <=? 12)
         && (1 <=? d) && (d <=? days_in_month y m)
      then
        if Nat.eqb (String.length s) 10 then Ok (mk_datetime (ymd2ord y m d) 0)
        else if Nat.eqb (String.length s) 19 then
          match field s 11 2, field s 14 2, field s 17 2 with
          | Some hh, Some mm, Some ss =>
              if char_at s 13 ":" && char_at s 16 ":"
                 && (hh <=? 23) && (mm <=? 59) && (ss <=? 59)
              then Ok (mk_datetime (ymd2ord y m d)
                         (((hh * 60 + mm) * 60 + ss) * 1000000))
              else invalid
          | _, _, _ => invalid
          end
        else invalid
      else invalid
  | _, _, _ => invalid
  end.

#[global] Instance demo_runtime : PyRuntime :=
  {| fromisoformat := iso_parse |}.

(** ** The specification's vocabulary *)

(** The four categories, and the one a processed task falls in by the
    priority done > cancelled > overdue > in progress. *)
Inductive Category := Done | Cancelled | Overdue | InProgress.

#[global] Instance Category_eq_dec : EqDecision Category.
Proof. solve_decision. Defined.

Definition category (task : Processed.t) : Category :=
  if Processed.is_done task then Done
  else if Processed.is_cancelled task then Cancelled
  else if Processed.is_overdue task then Overdue
  else InProgress.

Definition count_category (c : Category) (tasks : list Processed.t) : Z :=
  Z.of_nat (length (filter (λ task, category task = c) tasks)).

(** The record that a dict comprehension keeps for the key [k]: the last
    one of the list with that key. *)
Definition last_with_id {A} (key : A → Z) (k : Z) (l : list A) : option A :=
  last (filter (λ a, key a = k) l).

(** The number of times the loop of [calculate_working_days] runs from
    [current_date]: once per date up to the end date, the end date
    itself counted when the time of day of [current_date] is earlier. *)
Definition iterations (current_date end_date : datetime) : Z :=
  Z.max 0 (toordinal end_date - toordinal current_date
           + (if time_of_day current_date <? time_of_day end_date
              then 1 else 0)).

(** The processed tasks of one project stage. *)
Definition in_stage (name : string) (tasks : list Processed.t)
    : list Processed.t :=
  filter (λ task, Processed.project_stage_name task = name) tasks.

(** The counts of a list of processed tasks, as [stage_stats] holds them. *)
Definition stage_counts (tasks : list Processed.t) : StageStats.t :=
  {| StageStats.total := Z.of_nat (length tasks);
     StageStats.done := count_category Done tasks;
     StageStats.overdue := count_category Overdue tasks;
     StageStats.in_progress := count_category InProgress tasks;
     StageStats.cancelled := count_category Cancelled tasks |}.

(** The value of a float: [2 ^ e], and the rational that a finite float
    stands for (0 for the others). *)
Definition pow2 (e : Z) : Q :=
  if 0 <=? e then inject_Z (2 ^ e) else / inject_Z (2 ^ (- e)).

Definition F2Q (x : spec_float) : Q :=
  match x with
  | S754_finite s m e => inject_Z (cond_Zopp s (Zpos m)) * pow2 e
  | _ => 0
  end.

(** A float that is neither an infinity nor a nan. *)
Definition is_finite (x : spec_float) : bool :=
  match x with
  | S754_zero _ | S754_finite _ _ _ => true
  | S754_infinity _ | S754_nan => false
  end.

(** The shift that [shr_fexp] applies to [m] at exponent [e]. *)
Definition shift_of (m e : Z) : Z :=
  Z.max 0 (fexp mant_dig max_exp (Zdigits2 m + e) - e).

(** The float that holds the mantissa [m] at exponent [e]. *)
Definition float_of_mantissa (m e : Z) : spec_float :=
  match m with
  | Z0 => S754_zero false
  | Zpos p => S754_finite false p e
  | Zneg _ => S754_nan
  end.


(** A computation keeps [P] when every request it sends satisfies [P]. *)
Definition sends (P : request → Prop) {A} (m : rpc A) : Prop :=
  ∀ trace r trace', m trace = (r, trace') → Forall P trace → Forall P trace'.

(** A computation only adds requests to the trace. *)
Definition extends {A} (m : rpc A) : Prop :=
  ∀ trace, ∃ sent, (m trace).2 = trace ++ sent.

(** A request that reads project stages by an empty list of ids. *)
Definition reads_no_project_stage (req : request) : Prop :=
  ∃ uid, req = Read uid "project.project.stage" [].

(** The message of the exception that a computation raised, if it did. *)
Definition raised {A} (r : result A) : option string :=
  match r with
  | Ok _ => None
  | Raise msg => Some msg
  end.

(** The message of the exception that [json_rpc] raises when [req] is
    sent to the backend; [None] when the backend answers with a result. *)
Definition request_error (remote : Remote) (req : request) : option string :=
  match req with
  | Authenticate => raised (json_rpc req (authenticate remote) []).1
  | SearchRead uid => raised (json_rpc req (search_read_tasks remote uid) []).1
  | Read uid model ids =>
      if decide (model = "project.project") then
        raised (json_rpc req (read_projects remote uid ids) []).1
      else if decide (model = "res.users") then
        raised (json_rpc req (read_users remote uid ids) []).1
      else if decide (model = "project.task.type") then
        raised (json_rpc req (read_task_stages remote uid ids) []).1
      else if decide (model = "project.project.stage") then
        raised (json_rpc req (read_project_stages remote uid ids) []).1
      else None
  end.

(** A run stops at the first exception: when a computation returns, every
    request of the trace was answered with a result; when it raises, every
    request but the last was, and the last one either was too or failed
    with the exception that is raised. *)
Definition stopped_at {A} (remote : Remote) (trace : list request)
    (r : result A) : Prop :=
  match r with
  | Ok _ => Forall (λ req, request_error remote req = None) trace
  | Raise msg =>
      Forall (λ req, request_error remote req = None) trace
      ∨ ∃ trace' req,
          trace = trace' ++ [req]
          ∧ Forall (λ req, request_error remote req = None) trace'
          ∧ request_error remote req = Some msg
  end.

Definition stops_at_failure {A} (remote : Remote) (m : rpc A) : Prop :=
  ∀ trace r trace',
    m trace = (r, trace') →
    Forall (λ req, request_error remote req = None) trace →
    stopped_at remote trace' r.

(** The sum of a field over the entries of a dict. *)
Definition sum_over {V} (f : V → Z) (m : gmap string V) : Z :=
  map_fold (λ _ v acc, f v + acc) 0 m.

(** The names of the variables that the module reads. *)
Definition required_vars : list string :=
  ["ODOO_URL"; "ODOO_DB"; "ODOO_USERNAME"; "ODOO_API_KEY"].

(** ** Sample data *)

Definition monday_morning : datetime := at_time 2024 6 10 9 0.
Definition tuesday_evening : datetime := at_time 2024 6 11 17 0.
Definition friday_evening : datetime := at_time 2024 6 14 17 0.

(** An overdue task with one unknown assignee and an unknown stage. *)
Definition overdue_task : Task.t :=
  {| Task.id := 1;
     Task.name := "Fix login";
     Task.project_id := Some (10, "Website");
     Task.stage_id := Some (5, "Doing");
     Task.date_deadline := Some "2024-06-08 12:00:00";
     Task.user_ids := [3; 4];
     Task.state := Some "01_in_progress";
     Task.is_closed := false |}.

(** A closed task whose project has no manager and no stage. *)
Definition done_task : Task.t :=
  {| Task.id := 2;
     Task.name := "Write docs";
     Task.project_id := Some (11, "Intranet");
     Task.stage_id := None;
     Task.date_deadline := Some "2024-06-01";
     Task.user_ids := [3];
     Task.state := Some "1_done";
     Task.is_closed := true |}.

(** A cancelled task with a deadline in the past. *)
Definition cancelled_task : Task.t :=
  {| Task.id := 3;
     Task.name := "Old banner";
     Task.project_id := Some (10, "Website");
     Task.stage_id := Some (5, "Doing");
     Task.date_deadline := Some "2024-06-08";
     Task.user_ids := [];
     Task.state := Some "1_canceled";
     Task.is_closed := false |}.

(** A task in progress, due on Friday evening, of a project that the
    backend does not return. *)
Definition open_task : Task.t :=
  {| Task.id := 4;
     Task.name := "Plan release";
     Task.project_id := Some (12, "Archive");
     Task.stage_id := None;
     Task.date_deadline := Some "2024-06-14 17:00:00";
     Task.user_ids := [];
     Task.state := Some "01_in_progress";
     Task.is_closed := false |}.

Definition sample_projects : list Project.t :=
  [ {| Project.id := 10; Project.name := "Website";
       Project.user_id := Some (3, "Ada"); Project.stage_id := Some (1, "Build") |};
    {| Project.id := 11; Project.name := "Intranet";
       Project.user_id := None; Project.stage_id := None |} ].

Definition sample_users : list Named.t :=
  [ {| Named.id := 3; Named.name := "Ada" |} ].

Definition sample_project_stages : list Named.t :=
  [ {| Named.id := 1; Named.name := "Build" |} ].

Definition sample_lookups : Lookups :=
  build_lookups sample_projects sample_users [] sample_project_stages.

(** What the run of Monday morning makes of [overdue_task] and of
    [done_task]. *)
Definition processed_overdue_task : Processed.t :=
  {| Processed.id := 1;
     Processed.name := "Fix login";
     Processed.project_name := "Website";
     Processed.manager := "Ada";
     Processed.stage_id := Some 5;
     Processed.stage_name := "No Stage";
     Processed.project_stage_id := Some 1;
     Processed.project_stage_name := "Build";
     Processed.deadline := Some "2024-06-08 12:00:00";
     Processed.assignees := ["Ada"; "User 4"];
     Processed.is_done := false;
     Processed.is_cancelled := false;
     Processed.is_overdue := true;
     Processed.days_overdue := 2;
     Processed.calendar_days_to_deadline := 0;
     Processed.working_days_to_deadline := 0;
     Processed.is_deadline_today := false;
     Processed.is_deadline_weekend := true;
     Processed.task_state := Some "01_in_progress";
     Processed.task_state_label := "In Progress" |}.

Definition processed_done_task : Processed.t :=
  {| Processed.id := 2;
     Processed.name := "Write docs";
     Processed.project_name := "Intranet";
     Processed.manager := "No Manager";
     Processed.stage_id := None;
     Processed.stage_name := "No Stage";
     Processed.project_stage_id := None;
     Processed.project_stage_name := "No Project Stage";
     Processed.deadline := Some "2024-06-01";
     Processed.assignees := ["Ada"];
     Processed.is_done := true;
     Processed.is_cancelled := false;
     Processed.is_overdue := false;
     Processed.days_overdue := 0;
     Processed.calendar_days_to_deadline := 0;
     Processed.working_days_to_deadline := 0;
     Processed.is_deadline_today := false;
     Processed.is_deadline_weekend := true;
     Processed.task_state := Some "1_done";
     Processed.task_state_label := "Done" |}.

(** A backend that answers every request. *)
Definition sample_backend : Remote :=
  {| authenticate := RpcResult (Some 2);
     search_read_tasks := λ _,
       RpcResult [overdue_task; done_task; cancelled_task; open_task];
     read_projects := λ _ _, RpcResult sample_projects;
     read_users := λ _ _, RpcResult sample_users;
     read_task_stages := λ _ _, RpcResult [];
     read_project_stages := λ _ _, RpcResult sample_project_stages |}.

(** A backend without tasks. *)
Definition empty_backend : Remote :=
  {| authenticate := RpcResult (Some 2);
     search_read_tasks := λ _, RpcResult [];
     read_projects := λ _ _, RpcResult [];
     read_users := λ _ _, RpcResult [];
     read_task_stages := λ _ _, RpcResult [];
     read_project_stages := λ _ _, RpcResult [] |}.

(** A backend that is down. *)
Definition down_backend : Remote :=
  {| authenticate := HTTPError "503 Server Error: Service Unavailable";
     search_read_tasks := λ _, HTTPError "503 Server Error: Service Unavailable";
     read_projects := λ _ _, HTTPError "503 Server Error: Service Unavailable";
     read_users := λ _ _, HTTPError "503 Server Error: Service Unavailable";
     read_task_stages := λ _ _, HTTPError "503 Server Error: Service Unavailable";
     read_project_stages := λ _ _, HTTPError "503 Server Error: Service Unavailable" |}.

(** A backend that rejects the credentials. *)
Definition rejecting_backend : Remote :=
  {| authenticate := RpcResult None;
     search_read_tasks := λ _, RpcResult [];
     read_projects := λ _ _, RpcResult [];
     read_users := λ _ _, RpcResult [];
     read_task_stages := λ _ _, RpcResult [];
     read_project_stages := λ _ _, RpcResult [] |}.

Definition friday_midnight : datetime := at_time 2024 6 14 0 0.

Definition saturday_noon : datetime := at_time 2024 6 15 12 0.

(** A task without deadline, which the search leaves out. *)
Definition undated_task : Task.t :=
  {| Task.id := 5;
     Task.name := "Someday";
     Task.project_id := Some (10, "Website");
     Task.stage_id := None;
     Task.date_deadline := None;
     Task.user_ids := [];
     Task.state := Some "01_in_progress";
     Task.is_closed := false |}.



Definition sample_environ : gmap string string :=
  list_to_map
    [("ODOO_URL", "https://odoo.example.com/jsonrpc");
     ("ODOO_DB", "");
     ("ODOO_USERNAME", "ada@example.com")].

(** A reply with the status 200 whose body holds an error beside a
    result. *)
Definition error_reply : reply Z :=
  {| raise_for_status := None;
     json := Ok (<["error" := 0]> (<["result" := 7]> ∅)) |}.

(** ** Examples *)

Example monday_2024_06_10 : weekday (at_time 2024 6 10 0 0) = 0.
Proof. reflexivity. Qed.

Example ordinal_2024_06_10 : ymd2ord 2024 6 10 = 739047.
Proof. reflexivity. Qed.

Example iso_parse_date_time :
  iso_parse "2024-06-10 09:30:00" = Ok (at_time 2024 6 10 9 30).
Proof. reflexivity. Qed.

Example iso_parse_date : iso_parse "2024-06-08" = Ok (at_time 2024 6 8 0 0).
Proof. reflexivity. Qed.

Example iso_parse_refuses :
  iso_parse "next week" = Raise "Invalid isoformat string: 'next week'".
Proof. reflexivity. Qed.

(** The specification's example: from Monday 2024-06-10 to Friday
    2024-06-14 there are 4 calendar days and 4 working days. *)
Example monday_to_friday :
  calculate_calendar_days (at_time 2024 6 10 0 0) (at_time 2024 6 14 0 0) = 4
  ∧ calculate_working_days (at_time 2024 6 10 0 0) (at_time 2024 6 14 0 0) = 4.
Proof. split; reflexivity. Qed.

(** The specification's examples: seen on 2024-06-10, a deadline on
    2024-06-08 is overdue by 2 days; *)
Example overdue_by_two_days :
  process_task sample_lookups monday_morning overdue_task
  = Ok processed_overdue_task.
Proof. vm_compute. reflexivity. Qed.

(** a closed task in the state ["1_done"] is done, whatever its deadline; *)
Example closed_task_is_done :
  process_task sample_lookups monday_morning done_task
  = Ok processed_done_task.
Proof. vm_compute. reflexivity. Qed.

(** and without tasks the statistics are zero and there is no group. *)
Example no_task_no_statistics :
  (get_tasks_data empty_backend monday_morning).1
  = {| Response.tasks := [];
       Response.statistics := Statistics.mk 0 0 0 0 0;
       Response.stage_statistics := ∅;
       Response.error := None |}.
Proof. vm_compute. reflexivity. Qed.

(** Seen on Monday 09:00, a task due on Friday 17:00 gets 4 calendar days
    and 5 working days. *)
Example friday_evening_deadline :
  ∃ task,
    process_task sample_lookups monday_morning open_task = Ok task
    ∧ Processed.calendar_days_to_deadline task = 4
    ∧ Processed.working_days_to_deadline task = 5.
Proof. eexists. split; [vm_compute; reflexivity|]. split; reflexivity. Qed.

(** ** Working days and calendar days *)

Section Dates.
Implicit Types a b current_date end_date : datetime.

Lemma dt_ltb_iterations current_date end_date :
  dt_ltb current_date end_date = true ↔ 0 < iterations current_date end_date.
Proof.
  unfold dt_ltb, iterations.
  destruct (time_of_day current_date <? time_of_day end_date);
    rewrite orb_true_iff, andb_true_iff, Z.ltb_lt, Z.eqb_eq; lia.
Qed.

Lemma iterations_add_days current_date end_date :
  0 < iterations current_date end_date →
  iterations (add_days current_date 1) end_date
  = iterations current_date end_date - 1.
Proof.
  unfold iterations, add_days; simpl.
  destruct (time_of_day current_date <? time_of_day end_date); lia.
Qed.

Lemma weekdays_in_empty lo hi : hi ≤ lo → weekdays_in lo hi = 0.
Proof.
  intros Hle. unfold weekdays_in, seqZ.
  replace (Z.to_nat (hi - lo)) with 0%nat by lia. reflexivity.
Qed.

Lemma weekdays_in_first lo hi :
  lo < hi →
  weekdays_in lo hi
  = (if is_weekday lo then 1 else 0) + weekdays_in (lo + 1) hi.
Proof.
  intros Hlt. unfold weekdays_in.
  rewrite (seqZ_cons lo (hi - lo)) by lia.
  replace (Z.pred (hi - lo)) with (hi - (lo + 1)) by lia.
  replace (Z.succ lo) with (lo + 1) by lia.
  rewrite filter_cons. destruct (is_weekday lo) eqn:Hw.
  - rewrite decide_True by reflexivity. simpl length. lia.
  - rewrite decide_False by discriminate. lia.
Qed.

Lemma weekdays_in_bounds lo hi :
  0 ≤ weekdays_in lo hi ∧ weekdays_in lo hi ≤ Z.max 0 (hi - lo).
Proof.
  unfold weekdays_in. split; [lia|].
  pose proof (length_filter (λ n, is_weekday n = true) (seqZ lo (hi - lo))) as Hf.
  pose proof (length_seqZ lo (hi - lo)) as Hs.
  lia.
Qed.

(** With fuel for every iteration the loop returns, and what it adds to
    the counter is the number of weekdays among the dates it visits. *)
Lemma working_days_loop_spec fuel current_date end_date working_days :
  iterations current_date end_date ≤ Z.of_nat fuel →
  working_days_loop fuel current_date end_date working_days
  = Some (working_days
          + weekdays_in (toordinal current_date)
              (toordinal current_date + iterations current_date end_date)).
Proof.
  revert current_date working_days.
  induction fuel as [|fuel IH]; intros current_date working_days Hfuel.
  - simpl. destruct (dt_ltb current_date end_date) eqn:Hlt.
    + apply dt_ltb_iterations in Hlt. lia.
    + assert (¬ 0 < iterations current_date end_date) as Hn
        by (rewrite <- dt_ltb_iterations, Hlt; discriminate).
      rewrite weekdays_in_empty by lia. f_equal. lia.
  - simpl. destruct (dt_ltb current_date end_date) eqn:Hlt.
    + apply dt_ltb_iterations in Hlt.
      rewrite IH by (rewrite iterations_add_days by assumption; lia).
      rewrite iterations_add_days by assumption.
      rewrite (weekdays_in_first (toordinal current_date)) by lia.
      unfold is_weekday, weekday. simpl toordinal.
      replace (toordinal current_date + 1
               + (iterations current_date end_date - 1))
        with (toordinal current_date + iterations current_date end_date)
        by lia.
      f_equal.
      destruct (weekday_of_ordinal (toordinal current_date) <? 5); lia.
    + assert (¬ 0 < iterations current_date end_date) as Hn
        by (rewrite <- dt_ltb_iterations, Hlt; discriminate).
      rewrite weekdays_in_empty by lia. f_equal. lia.
Qed.

Lemma working_days_fuel_enough a b :
  iterations a b ≤ Z.of_nat (working_days_fuel a b).
Proof.
  unfold iterations, working_days_fuel.
  destruct (time_of_day a <? time_of_day b); lia.
Qed.


(** What [calculate_working_days] computes: the weekdays from the start
    date up to the end date, the end date included exactly when the
    start's time of day is earlier than the end's. *)
Lemma calculate_working_days_spec a b :
  calculate_working_days a b
  = if dt_geb a b then 0
    else weekdays_in (toordinal a)
           (toordinal b
            + (if time_of_day a <? time_of_day b then 1 else 0)).
Proof.
  unfold calculate_working_days, dt_geb.
  destruct (dt_ltb a b) eqn:Hlt; simpl; [|reflexivity].
  rewrite working_days_loop_spec by apply working_days_fuel_enough.
  apply dt_ltb_iterations in Hlt. simpl. unfold iterations in *.
  rewrite Z.add_0_l. f_equal.
destruct (time_of_day a <? time_of_day b); lia.
Qed.

(** X3: when the end's time of day is not later than the start's, as for
    a deadline at midnight, the count is over [a.date, b.date). *)
Lemma calculate_working_days_half_open a b :
  dt_ltb a b = true →
  time_of_day b ≤ time_of_day a →
  calculate_working_days a b = weekdays_in (toordinal a) (toordinal b).
Proof.
  intros Hlt Htime. rewrite calculate_working_days_spec.
  unfold dt_geb. rewrite Hlt. simpl.
  replace (time_of_day a <? time_of_day b) with false
    by (symmetry; apply Z.ltb_ge; lia).
  f_equal. lia.
Qed.


Lemma calculate_working_days_nonneg a b : 0 ≤ calculate_working_days a b.
Proof.
  rewrite calculate_working_days_spec.
  destruct (dt_geb a b); [lia|]. apply weekdays_in_bounds.
Qed.
End Dates.

Lemma calculate_working_days_half_open_witness :
  calculate_working_days monday_morning friday_midnight
  = weekdays_in (toordinal monday_morning) (toordinal friday_midnight).
Proof.
  apply (calculate_working_days_half_open monday_morning friday_midnight).
  - reflexivity.
  - cbn. lia.
Defined.


Lemma calculate_calendar_days_nonneg (a b : datetime) :
  0 ≤ calculate_calendar_days a b.
Proof.
  unfold calculate_calendar_days, dt_geb, dt_ltb.
  destruct (toordinal a <? toordinal b) eqn:Hd; simpl.
  - apply Z.ltb_lt in Hd. lia.
  - destruct (toordinal a =? toordinal b) eqn:He; simpl; [|lia].
    apply Z.eqb_eq in He. destruct (time_of_day a <? time_of_day b); simpl; lia.
Qed.

(** C5: [calculate_calendar_days a b] is 0 when [a >= b], and otherwise the
    number of days from the date of [a] to the date of [b], which is not
    negative. *)
Theorem calculate_calendar_days_correct (a b : datetime) :
  (dt_geb a b = true → calculate_calendar_days a b = 0)
  ∧ (dt_geb a b = false →
     calculate_calendar_days a b = toordinal b - toordinal a
     ∧ 0 ≤ toordinal b - toordinal a).
Proof.
  split; intros Hcmp.
  - unfold calculate_calendar_days. rewrite Hcmp. reflexivity.
  - pose proof (calculate_calendar_days_nonneg a b) as Hnonneg.
    unfold calculate_calendar_days in *. rewrite Hcmp in *. auto.
Qed.

Lemma calculate_calendar_days_correct_witness :
  calculate_calendar_days friday_evening monday_morning = 0
  ∧ calculate_calendar_days monday_morning friday_evening = 4.
Proof.
  split.
  - apply (proj1 (calculate_calendar_days_correct friday_evening monday_morning)).
    reflexivity.
  - destruct (proj2 (calculate_calendar_days_correct monday_morning
                       friday_evening) eq_refl) as [-> _].
    reflexivity.
Defined.


(** C2: from Monday 09:00 to Tuesday 17:00 [calculate_working_days]
    counts 2 days, Tuesday included, where the half-open range of dates
    from Monday to Tuesday holds one weekday and
    [calculate_calendar_days] returns 1. *)
Theorem calculate_working_days_counts_end_date :
  dt_geb monday_morning tuesday_evening = false
  ∧ calculate_working_days monday_morning tuesday_evening = 2
  ∧ weekdays_in (toordinal monday_morning) (toordinal tuesday_evening) = 1
  ∧ calculate_calendar_days monday_morning tuesday_evening = 1.
Proof. repeat split; vm_compute; reflexivity. Qed.

(** ** Dicts *)

Section Dicts.
Context {A V : Type} (key : A → Z) (val : A → V).

Lemma to_dict_snoc (l : list A) (a : A) :
  to_dict key val (l ++ [a]) = <[key a := val a]> (to_dict key val l).
Proof. unfold to_dict. rewrite fold_left_app. reflexivity. Qed.

(** A lookup in a dict comprehension finds the value of the last element
    with the key. *)
Lemma to_dict_lookup (l : list A) (k : Z) :
  to_dict key val l !! k = val <$> last_with_id key k l.
Proof.
  induction l as [|a l IH] using rev_ind.
  - unfold to_dict, last_with_id. simpl. rewrite lookup_empty. reflexivity.
  - rewrite to_dict_snoc. unfold last_with_id in *.
    rewrite filter_app, filter_cons, filter_nil.
    destruct (decide (key a = k)) as [->|Hne].
    + rewrite lookup_insert_eq, last_snoc. reflexivity.
    + rewrite lookup_insert_ne by assumption. rewrite app_nil_r. exact IH.
Qed.

Lemma last_with_id_absent (l : list A) (k : Z) :
  (∀ a, a ∈ l → key a ≠ k) → last_with_id key k l = None.
Proof.
  intros Habsent. unfold last_with_id.
  replace (filter (λ a, key a = k) l) with (@nil A); [reflexivity|].
  symmetry. induction l as [|a l IH]; [reflexivity|].
  rewrite filter_cons. rewrite decide_False by (apply Habsent; left).
  apply IH. intros a' Ha'. apply Habsent. right. exact Ha'.
Qed.

Lemma to_dict_absent (l : list A) (k : Z) :
  (∀ a, a ∈ l → key a ≠ k) → to_dict key val l !! k = None.
Proof.
  intros Habsent. rewrite to_dict_lookup, last_with_id_absent by assumption.
  reflexivity.
Qed.
End Dicts.

(** ** The loop over the tasks *)

Section Counting.
Implicit Types (task : Processed.t) (tasks : list Processed.t).

Lemma count_category_nil c : count_category c [] = 0.
Proof. reflexivity. Qed.

Lemma count_category_snoc c tasks task :
  count_category c (tasks ++ [task])
  = count_category c tasks + (if decide (category task = c) then 1 else 0).
Proof.
  unfold count_category.
  rewrite filter_app, length_app, filter_cons, filter_nil.
  destruct (decide (category task = c)); simpl; lia.
Qed.

Lemma count_category_app c tasks tasks' :
  count_category c (tasks ++ tasks')
  = count_category c tasks + count_category c tasks'.
Proof. unfold count_category. rewrite filter_app, length_app. lia. Qed.

(** The four categories partition any list of processed tasks. *)
Lemma count_category_partition tasks :
  Z.of_nat (length tasks)
  = count_category Done tasks + count_category Cancelled tasks
    + count_category Overdue tasks + count_category InProgress tasks.
Proof.
  induction tasks as [|task tasks IH] using rev_ind; [reflexivity|].
  rewrite !count_category_snoc, length_app. simpl length.
  destruct (category task); simpl; lia.
Qed.
End Counting.

Section Loop.
Context `{PyRuntime} (L : Lookups) (current_time : datetime).

(** The counters of one iteration, read off the task's category. *)
Lemma loop_body_ok st task st' :
  loop_body L current_time st task = Ok st' →
  ∃ processed_task,
    process_task L current_time task = Ok processed_task
    ∧ processed_tasks st' = processed_tasks st ++ [processed_task]
    ∧ done_count st'
      = done_count st + (if decide (category processed_task = Done) then 1 else 0)
    ∧ cancelled_count st'
      = cancelled_count st
        + (if decide (category processed_task = Cancelled) then 1 else 0)
    ∧ overdue_count st'
      = overdue_count st
        + (if decide (category processed_task = Overdue) then 1 else 0).
Proof.
  unfold loop_body. intros Hbody.
  destruct (process_task L current_time task) as [pt|msg] eqn:Hpt;
    [|discriminate].
  simpl in Hbody. injection Hbody as <-. exists pt. simpl.
  split; [reflexivity|]. split; [reflexivity|].
  unfold category.
  destruct (Processed.is_done pt), (Processed.is_cancelled pt),
    (Processed.is_overdue pt); simpl; lia.
Qed.

(** After the loop, the list holds one processed task per task, in order,
    and each counter has grown by the number of tasks of its category. *)
Lemma for_each_loop_body tasks st st' :
  for_each (loop_body L current_time) tasks st = Ok st' →
  ∃ processed,
    Forall2 (λ task processed_task,
               process_task L current_time task = Ok processed_task)
      tasks processed
    ∧ processed_tasks st' = processed_tasks st ++ processed
    ∧ done_count st' = done_count st + count_category Done processed
    ∧ cancelled_count st'
      = cancelled_count st + count_category Cancelled processed
    ∧ overdue_count st' = overdue_count st + count_category Overdue processed.
Proof.
  revert st. induction tasks as [|task tasks IH]; intros st Hloop.
  - simpl in Hloop. injection Hloop as <-. exists [].
    rewrite app_nil_r, !count_category_nil.
    repeat split; try lia. constructor.
  - simpl in Hloop.
    destruct (loop_body L current_time st task) as [st1|msg] eqn:Hbody;
      [|discriminate].
    simpl in Hloop.
    apply loop_body_ok in Hbody as (pt & Hpt & Hl & Hd & Hc & Ho).
    apply IH in Hloop as (pts & Hall & Hl' & Hd' & Hc' & Ho').
    exists (pt :: pts).
    change (pt :: pts) with ([pt] ++ pts).
    rewrite !(count_category_app _ [pt] pts).
    change [pt] with ([] ++ [pt]). rewrite !count_category_snoc.
    rewrite !count_category_nil. simpl app.
    split; [constructor; assumption|].
    rewrite Hl', Hl, Hd', Hd, Hc', Hc, Ho', Ho, <- app_assoc.
    repeat split; lia.
Qed.

End Loop.

(** ** The requests of a run *)

Section Rpc.
Context `{PyRuntime}.

Lemma json_rpc_ok {A} (req : request) (response : http A) trace a trace' :
  json_rpc req response trace = (Ok a, trace') →
  response = RpcResult a ∧ trace' = trace ++ [req].
Proof.
  unfold json_rpc. intros Hrun.
  destruct response; simplify_eq. auto.
Qed.

Lemma json_rpc_raise {A} (req : request) (response : http A) trace :
  (∀ r, response ≠ RpcResult r) →
  ∃ msg, json_rpc req response trace = (Raise msg, trace ++ [req]).
Proof.
  unfold json_rpc. intros Hfail.
  destruct response; eauto. destruct (Hfail r). reflexivity.
Qed.

(** What the steps of a run that returns normally have answered. *)
Lemma try_body_ok remote current_time trace data trace' :
  try_body remote current_time trace = (Ok data, trace') →
  ∃ uid tasks projects users task_stages project_stages,
    authenticate remote = RpcResult (Some uid)
    ∧ uid ≠ 0
    ∧ search_read_tasks remote uid = RpcResult tasks
    ∧ process tasks projects users task_stages project_stages current_time
      = Ok data.
Proof.
  unfold try_body, mbind, rpc_mbind, rpc_bind, json_rpc, lift.
  intros Hrun.
  destruct (authenticate remote) as [| | | | |[uid|]] eqn:Hauth;
    try discriminate.
  destruct (uid =? 0) eqn:Huid; [discriminate|].
  apply Z.eqb_neq in Huid.
  destruct (search_read_tasks remote uid) as [| | | | |tasks] eqn:Htasks;
    try discriminate.
  destruct (fetch_related remote uid tasks _)
    as [[[[[projects users] task_stages] project_stages]|] trace1];
    [|discriminate].
  destruct (process tasks projects users task_stages project_stages
              current_time) as [data'|] eqn:Hprocess; [|discriminate].
  injection Hrun as -> _. eauto 10.
Qed.

Lemma process_ok tasks projects users task_stages project_stages
    current_time data :
  process tasks projects users task_stages project_stages current_time
  = Ok data →
  ∃ st,
    for_each
      (loop_body (build_lookups projects users task_stages project_stages)
         current_time) tasks empty_tally = Ok st
    ∧ Response.tasks data = processed_tasks st
    ∧ Response.statistics data
      = {| Statistics.total := Z.of_nat (length (processed_tasks st));
           Statistics.done := done_count st;
           Statistics.cancelled := cancelled_count st;
           Statistics.overdue := overdue_count st;
           Statistics.in_progress :=
             Z.of_nat (length (processed_tasks st)) - done_count st
             - cancelled_count st - overdue_count st |}
    ∧ Response.stage_statistics data
      = stage_percentages (fold_left count_stage (processed_tasks st) ∅)
    ∧ Response.error data = None.
Proof.
  unfold process. intros Hprocess.
  destruct (for_each _ tasks empty_tally) as [st|] eqn:Hloop; [|discriminate].
  simpl in Hprocess. injection Hprocess as <-. exists st. simpl. auto.
Qed.

(** Every task of a response was made by [process_task] from a task of
    the backend, under the lookups of that run. *)
Lemma get_tasks_data_tasks remote current_time processed_task :
  processed_task ∈ Response.tasks (get_tasks_data remote current_time).1 →
  ∃ L task, process_task L current_time task = Ok processed_task.
Proof.
  unfold get_tasks_data.
  destruct (try_body remote current_time []) as [[data|e] trace] eqn:Hrun;
    simpl.
  - apply try_body_ok in Hrun
      as (uid & tasks & projects & users & task_stages & project_stages
          & _ & _ & _ & Hprocess).
    apply process_ok in Hprocess as (st & Hloop & -> & _).
    apply for_each_loop_body in Hloop as (processed & Hall & -> & _).
    simpl. intros Hin.
    apply list_elem_of_lookup in Hin as [i Hi].
    destruct (Forall2_lookup_r _ _ _ _ _ Hall Hi) as (task & _ & Htask).
    eauto.
  - intros Hin. apply elem_of_nil in Hin. destruct Hin.
Qed.
End Rpc.

(** ** The fields of a processed task *)

Section Fields.
Context `{PyRuntime} (L : Lookups) (current_time : datetime).

(** A task is processed exactly when its deadline parses, and then its
    scheduling fields are those of [schedule]. *)
Lemma process_task_ok task processed_task :
  process_task L current_time task = Ok processed_task →
  ∃ deadline_dt,
    parse_deadline (Task.date_deadline task) = Ok deadline_dt
    ∧ Processed.is_done processed_task = Task.is_closed task
    ∧ Processed.is_cancelled processed_task
      = bool_decide (Task.state task = Some "1_canceled")
    ∧ ∀ s,
        s = schedule (Task.is_closed task)
              (bool_decide (Task.state task = Some "1_canceled"))
              deadline_dt current_time →
        Processed.is_overdue processed_task = is_overdue s
        ∧ Processed.days_overdue processed_task = days_overdue s
        ∧ Processed.calendar_days_to_deadline processed_task
          = calendar_days_to_deadline s
        ∧ Processed.working_days_to_deadline processed_task
          = working_days_to_deadline s
        ∧ Processed.is_deadline_today processed_task = is_deadline_today s
        ∧ Processed.is_deadline_weekend processed_task
          = is_deadline_weekend s.
Proof.
  unfold process_task. intros Hpt.
  destruct (parse_deadline (Task.date_deadline task)) as [deadline_dt|]
    eqn:Hparse; [|discriminate].
  simpl in Hpt. injection Hpt as <-. exists deadline_dt. simpl.
  repeat split; subst; reflexivity.
Qed.

Lemma process_task_parsed task deadline_dt :
  parse_deadline (Task.date_deadline task) = Ok deadline_dt →
  ∃ processed_task, process_task L current_time task = Ok processed_task.
Proof. unfold process_task. intros ->. simpl. eauto. Qed.


(** A task that is done or cancelled keeps the defaults, whatever its
    deadline. *)
Lemma schedule_closed is_done is_cancelled deadline_dt :
  is_done = true ∨ is_cancelled = true →
  let s := schedule is_done is_cancelled deadline_dt current_time in
  is_overdue s = false ∧ days_overdue s = 0
  ∧ calendar_days_to_deadline s = 0 ∧ working_days_to_deadline s = 0.
Proof.
  intros Hclosed. unfold schedule.
  destruct deadline_dt as [d|]; [|simpl; auto].
  destruct is_done, is_cancelled; simpl; auto.
  destruct Hclosed; discriminate.
Qed.

(** Overdue means open, with a deadline at least one day back; and only
    an overdue task has days overdue. *)
Lemma schedule_overdue is_done is_cancelled deadline_dt :
  let s := schedule is_done is_cancelled deadline_dt current_time in
  (is_overdue s = true →
   is_done = false ∧ is_cancelled = false ∧ 1 ≤ days_overdue s)
  ∧ (days_overdue s ≠ 0 → is_overdue s = true).
Proof.
  unfold schedule.
  destruct deadline_dt as [d|]; [|simpl; split; [discriminate|lia]].
  destruct is_done, is_cancelled; simpl;
    try (split; [discriminate|lia]).
  destruct (toordinal d <? toordinal current_time) eqn:Hpast; simpl.
  - apply Z.ltb_lt in Hpast. split; intros _; repeat split; lia.
  - split; [discriminate|lia].
Qed.


End Fields.

(** ** The statistics of a run *)

(** C1: in the response of every run, each counter of [statistics] is the
    number of processed tasks of its category, a task's category being the
    first that applies among done, cancelled, overdue and in progress; and
    [total], the number of processed tasks, is the sum of the four. *)
Theorem statistics_partition `{PyRuntime} (remote : Remote)
    (current_time : datetime) :
  let data := (get_tasks_data remote current_time).1 in
  let statistics := Response.statistics data in
  let tasks := Response.tasks data in
  Statistics.total statistics = Z.of_nat (length tasks)
  ∧ Statistics.done statistics = count_category Done tasks
  ∧ Statistics.cancelled statistics = count_category Cancelled tasks
  ∧ Statistics.overdue statistics = count_category Overdue tasks
  ∧ Statistics.in_progress statistics = count_category InProgress tasks
  ∧ Statistics.total statistics
    = Statistics.done statistics + Statistics.cancelled statistics
      + Statistics.overdue statistics + Statistics.in_progress statistics.
Proof.
  unfold get_tasks_data.
  destruct (try_body remote current_time []) as [[data|e] trace] eqn:Hrun;
    cbv zeta; simpl fst.
  - apply try_body_ok in Hrun
      as (uid & tasks & projects & users & task_stages & project_stages
          & _ & _ & _ & Hprocess).
    apply process_ok in Hprocess as (st & Hloop & -> & -> & _).
    apply for_each_loop_body in Hloop as (processed & _ & -> & -> & -> & ->).
    simpl.
    pose proof (count_category_partition processed) as Hsum.
    repeat split; lia.
  - simpl. repeat split.
Qed.

(** C4: when the body of the [try] raises, the entry point returns no
    task, five zero counts, no stage statistics, and the exception's
    message under [error]. *)
Theorem exception_gives_error_response `{PyRuntime} (remote : Remote)
    (current_time : datetime) (e : string) (trace : list request) :
  try_body remote current_time [] = (Raise e, trace) →
  let data := (get_tasks_data remote current_time).1 in
  Response.tasks data = []
  ∧ Response.statistics data = Statistics.mk 0 0 0 0 0
  ∧ Response.stage_statistics data = ∅
  ∧ Response.error data = Some e.
Proof.
  intros Hraise. unfold get_tasks_data. rewrite Hraise. simpl.
  repeat split.
Qed.

Lemma exception_gives_error_response_witness :
  let data := (get_tasks_data down_backend monday_morning).1 in
  Response.tasks data = []
  ∧ Response.statistics data = Statistics.mk 0 0 0 0 0
  ∧ Response.stage_statistics data = ∅
  ∧ Response.error data = Some "503 Server Error: Service Unavailable".
Proof.
  apply (exception_gives_error_response down_backend monday_morning
           "503 Server Error: Service Unavailable" [Authenticate]).
  reflexivity.
Defined.

(** A run that returns normally has no [error]. *)
Lemma success_has_no_error `{PyRuntime} (remote : Remote)
    (current_time : datetime) data trace :
  try_body remote current_time [] = (Ok data, trace) →
  (get_tasks_data remote current_time).1 = data ∧ Response.error data = None.
Proof.
  intros Hrun. unfold get_tasks_data. rewrite Hrun. split; [reflexivity|].
  apply try_body_ok in Hrun as (? & ? & ? & ? & ? & ? & _ & _ & _ & Hprocess).
  apply process_ok in Hprocess as (st & _ & _ & _ & _ & Herror). exact Herror.
Qed.

(** The three places an exception comes from. A request that fails: *)
Lemma authenticate_failure_raises `{PyRuntime} (remote : Remote)
    (current_time : datetime) :
  (∀ uid, authenticate remote ≠ RpcResult uid) →
  ∃ msg, try_body remote current_time [] = (Raise msg, [Authenticate]).
Proof.
  intros Hfail. unfold try_body, mbind, rpc_mbind, rpc_bind, json_rpc.
  destruct (authenticate remote) as [| | | | |uid]; simpl; eauto.
  destruct (Hfail uid). reflexivity.
Qed.

(** X7: a user id that is [False] or 0 raises
    [Exception("Failed to authenticate")] once the request is sent. *)
Lemma rejected_credentials_raise `{PyRuntime} (remote : Remote)
    (current_time : datetime) :
  authenticate remote = RpcResult None
  ∨ authenticate remote = RpcResult (Some 0) →
  try_body remote current_time []
  = (Raise "Failed to authenticate", [Authenticate]).
Proof.
  unfold try_body, mbind, rpc_mbind, rpc_bind, json_rpc.
  intros [-> | ->]; reflexivity.
Qed.

Lemma rejected_credentials_raise_witness :
  try_body rejecting_backend monday_morning []
  = (Raise "Failed to authenticate", [Authenticate]).
Proof.
  apply (rejected_credentials_raise rejecting_backend monday_morning).
  left. reflexivity.
Defined.


(** ** Done, cancelled and overdue tasks *)

(** C7: a task whose closed flag is true or whose state is ["1_canceled"]
    is never marked overdue and keeps 0 for its days overdue and its
    calendar and working days to the deadline, whatever its deadline; the
    iteration that processes it adds one to the done counter (closed) or
    to the cancelled counter (cancelled, not closed) and leaves the overdue
    counter as it was. *)
Theorem closed_task_never_overdue `{PyRuntime} (L : Lookups)
    (current_time : datetime) (st st' : Tally) (task : Task.t) :
  Task.is_closed task = true ∨ Task.state task = Some "1_canceled" →
  loop_body L current_time st task = Ok st' →
  ∃ processed_task,
    processed_tasks st' = processed_tasks st ++ [processed_task]
    ∧ Processed.is_overdue processed_task = false
    ∧ Processed.days_overdue processed_task = 0
    ∧ Processed.calendar_days_to_deadline processed_task = 0
    ∧ Processed.working_days_to_deadline processed_task = 0
    ∧ overdue_count st' = overdue_count st
    ∧ (if Task.is_closed task
       then category processed_task = Done
            ∧ done_count st' = done_count st + 1
            ∧ cancelled_count st' = cancelled_count st
       else category processed_task = Cancelled
            ∧ done_count st' = done_count st
            ∧ cancelled_count st' = cancelled_count st + 1).
Proof.
  intros Hclosed Hbody.
  apply loop_body_ok in Hbody as (pt & Hpt & Hl & Hd & Hc & Ho).
  apply process_task_ok in Hpt as (deadline_dt & _ & Hdone & Hcancelled & Hs).
  destruct (Hs _ eq_refl) as (Hov & Hdays & Hcal & Hwork & _).
  assert (Task.is_closed task = true
          ∨ bool_decide (Task.state task = Some "1_canceled") = true)
    as Hflags.
  { destruct Hclosed as [Hcl|Hst]; [left; exact Hcl|right].
    apply bool_decide_eq_true. exact Hst. }
  destruct (schedule_closed current_time _ _ deadline_dt Hflags)
    as (Hov' & Hdays' & Hcal' & Hwork').
  exists pt. rewrite Hov, Hdays, Hcal, Hwork.
  repeat (split; [assumption|]).
  unfold category in *. rewrite Hdone, Hcancelled, Hov, Hov' in *.
  destruct (Task.is_closed task); simpl in *.
  - repeat split; lia.
  - destruct Hflags as [Hcl|Hst]; [discriminate|]. rewrite Hst in *.
    simpl in *. repeat split; lia.
Qed.

Lemma closed_task_never_overdue_witness :
  ∃ processed_task,
    [processed_done_task] = [] ++ [processed_task]
    ∧ Processed.is_overdue processed_task = false
    ∧ Processed.days_overdue processed_task = 0
    ∧ Processed.calendar_days_to_deadline processed_task = 0
    ∧ Processed.working_days_to_deadline processed_task = 0
    ∧ 0 = 0
    ∧ category processed_task = Done ∧ 1 = 0 + 1 ∧ 0 = 0.
Proof.
  apply (closed_task_never_overdue sample_lookups monday_morning empty_tally
           {| processed_tasks := [processed_done_task]; done_count := 1;
              overdue_count := 0; cancelled_count := 0 |} done_task).
  - left. reflexivity.
  - vm_compute. reflexivity.
Defined.

(** C9: in the response of every run, a task marked overdue is neither
    done nor cancelled and is at least one day overdue; and a task with
    days overdue is marked overdue. *)
Theorem overdue_means_open_and_late `{PyRuntime} (remote : Remote)
    (current_time : datetime) (processed_task : Processed.t) :
  processed_task ∈ Response.tasks (get_tasks_data remote current_time).1 →
  (Processed.is_overdue processed_task = true →
   Processed.is_done processed_task = false
   ∧ Processed.is_cancelled processed_task = false
   ∧ 1 ≤ Processed.days_overdue processed_task)
  ∧ (Processed.days_overdue processed_task ≠ 0 →
     Processed.is_overdue processed_task = true).
Proof.
  intros Hin.
  apply get_tasks_data_tasks in Hin as (L & task & Hpt).
  apply process_task_ok in Hpt as (deadline_dt & _ & -> & -> & Hs).
  destruct (Hs _ eq_refl) as (-> & -> & _).
  apply schedule_overdue.
Qed.

Lemma overdue_means_open_and_late_witness :
  processed_overdue_task
    ∈ Response.tasks (get_tasks_data sample_backend monday_morning).1
  ∧ Processed.is_done processed_overdue_task = false
  ∧ Processed.is_cancelled processed_overdue_task = false
  ∧ 1 ≤ Processed.days_overdue processed_overdue_task.
Proof.
  assert (processed_overdue_task
            ∈ Response.tasks (get_tasks_data sample_backend monday_morning).1)
    as Hin by (vm_compute; left).
  split; [exact Hin|].
  apply (overdue_means_open_and_late sample_backend monday_morning
           processed_overdue_task Hin).
  reflexivity.
Defined.



(** ** Names and their fallbacks *)

(** The names of a processed task, as looked up. *)
Lemma process_task_names `{PyRuntime} (L : Lookups) (current_time : datetime)
    (task : Task.t) (processed_task : Processed.t) :
  process_task L current_time task = Ok processed_task →
  let project_id := fst <$> Task.project_id task in
  Processed.project_name processed_task
  = dict_get (project_names L) project_id "No Project"
  ∧ Processed.manager processed_task
    = dict_get (project_managers L) project_id "Unknown"
  ∧ Processed.stage_id processed_task = fst <$> Task.stage_id task
  ∧ Processed.stage_name processed_task
    = dict_get (task_stage_names L) (fst <$> Task.stage_id task) "No Stage"
  ∧ Processed.project_stage_id processed_task
    = mjoin (project_id ≫= (project_stage_mapping L !!.))
  ∧ Processed.project_stage_name processed_task
    = dict_get (project_stage_names L)
        (Processed.project_stage_id processed_task) "No Project Stage"
  ∧ Processed.assignees processed_task
    = (λ uid, default ("User " +:+ pretty uid) (user_names L !! uid))
        <$> Task.user_ids task.
Proof.
  unfold process_task. intros Hpt.
  destruct (parse_deadline (Task.date_deadline task)); [|discriminate].
  simpl in Hpt. injection Hpt as <-. simpl. repeat split.
Qed.

Lemma dict_get_absent {A} (key : A → Z) (val : A → string) (l : list A)
    (k : option Z) (dflt : string) :
  (∀ i, k = Some i → ∀ a, a ∈ l → key a ≠ i) →
  dict_get (to_dict key val l) k dflt = dflt.
Proof.
  intros Habsent. unfold dict_get. destruct k as [i|]; [|reflexivity].
  simpl. rewrite to_dict_absent; [reflexivity|]. apply Habsent. reflexivity.
Qed.

(** C6: the fallbacks of the names of a processed task. The manager is
    ["No Manager"] when the task's project, as read, has no manager, and
    ["Unknown"] when no project with the task's project id was read; the
    project name is ["No Project"] when the task has no project or no
    project with its id was read; an assignee whose id was not read among
    the users is ["User {id}"]; the stage name is ["No Stage"] when the
    task has no stage or its stage was not read; and the project stage name
    is ["No Project Stage"] when the task's project has no stage or that
    stage was not read. *)
Theorem lookup_fallbacks `{PyRuntime} (projects : list Project.t)
    (users task_stages project_stages : list Named.t)
    (current_time : datetime) (task : Task.t) (processed_task : Processed.t) :
  process_task (build_lookups projects users task_stages project_stages)
    current_time task = Ok processed_task →
  let project_id := fst <$> Task.project_id task in
  (∀ pid proj,
     project_id = Some pid →
     last_with_id Project.id pid projects = Some proj →
     Project.user_id proj = None →
     Processed.manager processed_task = "No Manager")
  ∧ (∀ pid,
       project_id = Some pid →
       (∀ proj, proj ∈ projects → Project.id proj ≠ pid) →
       Processed.manager processed_task = "Unknown"
       ∧ Processed.project_name processed_task = "No Project")
  ∧ (project_id = None →
     Processed.manager processed_task = "Unknown"
     ∧ Processed.project_name processed_task = "No Project")
  ∧ (∀ i uid,
       Task.user_ids task !! i = Some uid →
       (∀ user, user ∈ users → Named.id user ≠ uid) →
       Processed.assignees processed_task !! i
       = Some ("User " +:+ pretty uid))
  ∧ ((∀ sid, fst <$> Task.stage_id task = Some sid →
             ∀ stage, stage ∈ task_stages → Named.id stage ≠ sid) →
     Processed.stage_name processed_task = "No Stage")
  ∧ Processed.project_stage_id processed_task
    = (pid ← project_id;
       proj ← last_with_id Project.id pid projects;
       fst <$> Project.stage_id proj)
  ∧ ((∀ sid, Processed.project_stage_id processed_task = Some sid →
             ∀ stage, stage ∈ project_stages → Named.id stage ≠ sid) →
     Processed.project_stage_name processed_task = "No Project Stage").
Proof.
  intros Hpt project_id.
  apply process_task_names in Hpt
    as (Hname & Hmanager & _ & Hstage & Hpsid & Hpsname & Hassignees).
  fold project_id in Hname, Hmanager, Hpsid.
  simpl in Hname, Hmanager, Hstage, Hpsid, Hpsname, Hassignees.
  split; [|split; [|split; [|split; [|split; [|split]]]]].
  - intros pid proj Hpid Hlast Hnone. rewrite Hmanager, Hpid.
    unfold dict_get. simpl. rewrite to_dict_lookup, Hlast. simpl.
    rewrite Hnone. reflexivity.
  - intros pid Hpid Habsent.
    assert (∀ i, project_id = Some i →
                 ∀ proj, proj ∈ projects → Project.id proj ≠ i) as Hnone.
    { intros i Hi. rewrite Hpid in Hi. injection Hi as <-. exact Habsent. }
    rewrite Hmanager, Hname.
    split; apply dict_get_absent; exact Hnone.
  - intros Hnone. rewrite Hmanager, Hname, Hnone. split; reflexivity.
  - intros i uid Hi Habsent. rewrite Hassignees, list_lookup_fmap, Hi.
    simpl. rewrite to_dict_absent by assumption. reflexivity.
  - intros Habsent. rewrite Hstage. apply dict_get_absent. exact Habsent.
  - rewrite Hpsid. destruct project_id as [pid|]; [|reflexivity].
    simpl. rewrite to_dict_lookup.
    destruct (last_with_id Project.id pid projects); reflexivity.
  - intros Habsent. rewrite Hpsname. apply dict_get_absent. exact Habsent.
Qed.

Lemma lookup_fallbacks_witness :
  Processed.manager processed_done_task = "No Manager"
  ∧ Processed.stage_name processed_done_task = "No Stage"
  ∧ Processed.project_stage_name processed_done_task = "No Project Stage".
Proof.
  assert (process_task sample_lookups monday_morning done_task
          = Ok processed_done_task) as Hpt by (vm_compute; reflexivity).
  destruct (lookup_fallbacks sample_projects sample_users []
              sample_project_stages monday_morning done_task
              processed_done_task Hpt)
    as (Hmanager & _ & _ & _ & Hstage & _ & Hproject_stage).
  split; [|split].
  - apply (Hmanager 11 (Project.mk 11 "Intranet" None None)); reflexivity.
  - apply Hstage. intros sid Hsid. discriminate Hsid.
  - apply Hproject_stage. intros sid Hsid. discriminate Hsid.
Defined.

(** ** Reads and empty lists of ids *)

Section Sends.
Context (P : request → Prop).

Lemma sends_json_rpc {A} (req : request) (response : http A) :
  P req → sends P (json_rpc req response).
Proof.
  intros Hreq trace r trace' Hrun Htrace. unfold json_rpc in Hrun.
  injection Hrun as _ <-. apply Forall_app. split; [exact Htrace|].
  constructor; [exact Hreq|constructor].
Qed.

Lemma sends_lift {A} (r : result A) : sends P (lift r).
Proof. intros trace r' trace' Hrun Htrace. injection Hrun as _ <-. exact Htrace. Qed.

Lemma sends_ret {A} (a : A) : sends P (mret a : rpc A).
Proof. intros trace r' trace' Hrun Htrace. injection Hrun as _ <-. exact Htrace. Qed.

Lemma sends_bind {A B} (m : rpc A) (k : A → rpc B) :
  sends P m → (∀ a, sends P (k a)) → sends P (m ≫= k).
Proof.
  intros Hm Hk trace r trace' Hrun Htrace.
  unfold mbind, rpc_mbind, rpc_bind in Hrun.
  destruct (m trace) as [[a|msg] trace1] eqn:Hm1.
  - apply (Hk a trace1 r trace' Hrun). apply (Hm trace _ _ Hm1 Htrace).
  - injection Hrun as _ <-. apply (Hm trace _ _ Hm1 Htrace).
Qed.
End Sends.

Lemma sends_fetch_related (P : request → Prop) (remote : Remote) (uid : Z)
    (tasks : list Task.t) :
  (∀ model ids,
     (model = "project.project.stage" → ids ≠ []) → P (Read uid model ids)) →
  sends P (fetch_related remote uid tasks).
Proof.
  intros HP. unfold fetch_related.
  destruct (collect_ids tasks) as [[project_ids user_ids] task_stage_ids].
  apply sends_bind; [apply sends_json_rpc, HP; discriminate|].
  intros projects.
  apply sends_bind; [apply sends_json_rpc, HP; discriminate|].
  intros users.
  apply sends_bind; [apply sends_json_rpc, HP; discriminate|].
  intros task_stages.
  apply sends_bind; [|intros; apply sends_ret].
  destruct (bool_decide (collect_project_stage_ids projects = ∅)) eqn:Hempty;
    [apply sends_ret|].
  apply sends_json_rpc, HP. intros _ Hids.
  apply bool_decide_eq_false in Hempty. apply Hempty.
  apply elements_empty_inv in Hids. apply leibniz_equiv. exact Hids.
Qed.

(** X2: the one guarded read: project stages are never read by an empty
    list of ids. *)
Lemma project_stages_read_is_guarded `{PyRuntime} (remote : Remote)
    (current_time : datetime) (req : request) :
  req ∈ (get_tasks_data remote current_time).2 → ¬ reads_no_project_stage req.
Proof.
  assert (sends (λ req, ¬ reads_no_project_stage req)
            (try_body remote current_time)) as Hsends.
  { unfold try_body.
    apply sends_bind; [apply sends_json_rpc; intros [? ?]; discriminate|].
    intros [uid|]; [|apply sends_lift].
    destruct (uid =? 0); [apply sends_lift|].
    apply sends_bind; [apply sends_json_rpc; intros [? ?]; discriminate|].
    intros tasks.
    apply sends_bind.
    - apply sends_fetch_related. intros model ids Hguard [uid' Hreq].
      injection Hreq as _ -> ->. apply Hguard; reflexivity.
    - intros [[[projects users] task_stages] project_stages].
      apply sends_lift. }
  assert (Forall (λ req, ¬ reads_no_project_stage req)
            (get_tasks_data remote current_time).2) as Hall.
  { unfold get_tasks_data.
    destruct (try_body remote current_time []) as [[data|e] trace] eqn:Hrun;
      exact (Hsends [] _ _ Hrun (Forall_nil_2 _)). }
  rewrite Forall_forall in Hall. apply Hall.
Qed.

Lemma project_stages_read_is_guarded_witness :
  Read 2 "project.project.stage" [1]
    ∈ (get_tasks_data sample_backend monday_morning).2
  ∧ ¬ reads_no_project_stage (Read 2 "project.project.stage" [1]).
Proof.
  assert (Read 2 "project.project.stage" [1]
            ∈ (get_tasks_data sample_backend monday_morning).2) as Hin
    by (vm_compute; do 5 right; left).
  split; [exact Hin|].
  exact (project_stages_read_is_guarded sample_backend monday_morning _ Hin).
Defined.

(** Requests are only ever added to the trace. *)
Lemma extends_json_rpc {A} (req : request) (response : http A) :
  extends (json_rpc req response).
Proof. intros trace. exists [req]. reflexivity. Qed.

Lemma extends_ret {A} (a : A) : extends (mret a : rpc A).
Proof. intros trace. exists []. simpl. rewrite app_nil_r. reflexivity. Qed.

Lemma extends_bind {A B} (m : rpc A) (k : A → rpc B) :
  extends m → (∀ a, extends (k a)) → extends (m ≫= k).
Proof.
  intros Hm Hk trace. unfold mbind, rpc_mbind, rpc_bind.
  destruct (Hm trace) as [sent Hsent].
  destruct (m trace) as [[a|msg] trace1]; simpl in Hsent; subst trace1.
  - destruct (Hk a (trace ++ sent)) as [sent' Hsent'].
    exists (sent ++ sent'). rewrite Hsent', app_assoc. reflexivity.
  - exists sent. reflexivity.
Qed.

(** A request followed by anything is in the trace, whatever it is
    answered. *)
Lemma json_rpc_bind_sent {A B} (req : request) (response : http A)
    (k : A → rpc B) trace :
  (∀ a, extends (k a)) → req ∈ ((json_rpc req response ≫= k) trace).2.
Proof.
  intros Hk. unfold mbind, rpc_mbind, rpc_bind, json_rpc.
  assert (req ∈ trace ++ [req]) as Hsent
    by (rewrite elem_of_app; right; left).
  destruct response as [| | | | |r]; try exact Hsent.
  destruct (Hk r (trace ++ [req])) as [sent ->].
  rewrite elem_of_app. left. exact Hsent.
Qed.

(** The read of the projects is sent whatever the ids. *)
Lemma fetch_related_reads_projects (remote : Remote) (uid : Z)
    (tasks : list Task.t) trace :
  Read uid "project.project" (elements (collect_ids tasks).1.1)
  ∈ (fetch_related remote uid tasks trace).2.
Proof.
  unfold fetch_related.
  destruct (collect_ids tasks) as [[project_ids user_ids] task_stage_ids].
  simpl fst. apply json_rpc_bind_sent. intros projects.
  apply extends_bind; [apply extends_json_rpc|]. intros users.
  apply extends_bind; [apply extends_json_rpc|]. intros task_stages.
  apply extends_bind; [|intros; apply extends_ret].
  destruct (bool_decide (collect_project_stage_ids projects = ∅));
    [apply extends_ret|apply extends_json_rpc].
Qed.

(** X8: so when the backend has no task, projects are read by the empty
    list. *)
Lemma no_task_reads_no_project `{PyRuntime} (remote : Remote)
    (current_time : datetime) (uid : Z) :
  authenticate remote = RpcResult (Some uid) →
  uid ≠ 0 →
  search_read_tasks remote uid = RpcResult [] →
  Read uid "project.project" [] ∈ (get_tasks_data remote current_time).2.
Proof.
  intros Hauth Huid Htasks.
  pose proof (fetch_related_reads_projects remote uid []
                ([Authenticate] ++ [SearchRead uid])) as Hread.
  simpl collect_ids in Hread. simpl fst in Hread.
  rewrite elements_empty in Hread.
  unfold get_tasks_data, try_body, mbind, rpc_mbind, rpc_bind, json_rpc, lift.
  rewrite Hauth. apply Z.eqb_neq in Huid. rewrite Huid, Htasks.
  simpl app in *.
  destruct (fetch_related remote uid [] _)
    as [[[[[projects users] task_stages] project_stages]|msg] trace1];
    simpl in Hread; [|exact Hread].
  destruct (process _ _ _ _ _ _); exact Hread.
Qed.

Lemma no_task_reads_no_project_witness :
  Read 2 "project.project" []
    ∈ (get_tasks_data empty_backend monday_morning).2.
Proof.
  apply (no_task_reads_no_project empty_backend monday_morning 2).
  - reflexivity.
  - lia.
  - reflexivity.
Defined.

(** C3: on a backend without tasks the run reads projects, users and task
    stages by an empty list of ids; only the read of project stages is
    skipped. *)
Theorem empty_id_lists_are_read :
  (get_tasks_data empty_backend monday_morning).2
  = [Authenticate; SearchRead 2;
     Read 2 "project.project" []; Read 2 "res.users" [];
     Read 2 "project.task.type" []].
Proof. vm_compute. reflexivity. Qed.

(** ** Statistics by project stage *)

Section Stages.
Implicit Types (task : Processed.t) (tasks : list Processed.t).

Lemma in_stage_snoc name tasks task :
  in_stage name (tasks ++ [task])
  = in_stage name tasks
    ++ (if decide (Processed.project_stage_name task = name)
        then [task] else []).
Proof.
  unfold in_stage. rewrite filter_app, filter_cons, filter_nil. reflexivity.
Qed.

Lemma count_stage_counts tasks task :
  count_stage_entry (stage_counts tasks) task = stage_counts (tasks ++ [task]).
Proof.
  unfold count_stage_entry, stage_counts. simpl.
  rewrite !count_category_snoc, length_app. simpl length.
  unfold category.
  destruct (Processed.is_done task), (Processed.is_cancelled task),
    (Processed.is_overdue task); simpl; f_equal; lia.
Qed.

(** After the loop of step 9, a stage name has an entry exactly when some
    task has it, and the entry counts the tasks of that stage. *)
Lemma fold_count_stage tasks name :
  fold_left count_stage tasks ∅ !! name
  = if decide (in_stage name tasks = []) then None
    else Some (stage_counts (in_stage name tasks)).
Proof.
  induction tasks as [|task tasks IH] using rev_ind.
  - simpl. rewrite lookup_empty. reflexivity.
  - rewrite fold_left_app. simpl. unfold count_stage at 1.
    rewrite in_stage_snoc.
    destruct (decide (Processed.project_stage_name task = name)) as [->|Hne].
    + rewrite lookup_insert_eq, IH.
      destruct (decide (in_stage _ tasks ++ [task] = [])) as [Hnil|_].
      { apply app_eq_nil in Hnil as [_ Hnil]. discriminate Hnil. }
      f_equal. rewrite <- count_stage_counts.
      destruct (decide (in_stage _ tasks = [])) as [->|_]; reflexivity.
    + rewrite lookup_insert_ne by assumption. rewrite IH, app_nil_r.
      reflexivity.
Qed.
End Stages.

(** Every group of [stage_statistics] is the non-empty list of the
    processed tasks with that project stage name: its counts are the sizes
    of the four categories within the group, they add up to its total, and
    each percentage is computed from its count and the total. *)
Lemma stage_statistics_entry `{PyRuntime} (remote : Remote)
    (current_time : datetime) (name : string) (entry : StagePercentages.t) :
  Response.stage_statistics (get_tasks_data remote current_time).1 !! name
  = Some entry →
  let group :=
    in_stage name (Response.tasks (get_tasks_data remote current_time).1) in
  group ≠ []
  ∧ StagePercentages.total entry = Z.of_nat (length group)
  ∧ StagePercentages.done_count entry = count_category Done group
  ∧ StagePercentages.cancelled_count entry = count_category Cancelled group
  ∧ StagePercentages.overdue_count entry = count_category Overdue group
  ∧ StagePercentages.in_progress_count entry
    = count_category InProgress group
  ∧ StagePercentages.total entry
    = StagePercentages.done_count entry
      + StagePercentages.cancelled_count entry
      + StagePercentages.overdue_count entry
      + StagePercentages.in_progress_count entry
  ∧ StagePercentages.done_percentage entry
    = percentage (StagePercentages.done_count entry)
        (StagePercentages.total entry)
  ∧ StagePercentages.overdue_percentage entry
    = percentage (StagePercentages.overdue_count entry)
        (StagePercentages.total entry)
  ∧ StagePercentages.in_progress_percentage entry
    = percentage (StagePercentages.in_progress_count entry)
        (StagePercentages.total entry)
  ∧ StagePercentages.cancelled_percentage entry
    = percentage (StagePercentages.cancelled_count entry)
        (StagePercentages.total entry).
Proof.
  unfold get_tasks_data.
  destruct (try_body remote current_time []) as [[data|e] trace] eqn:Hrun;
    cbv zeta; simpl fst.
  - apply try_body_ok in Hrun
      as (uid & tasks & projects & users & task_stages & project_stages
          & _ & _ & _ & Hprocess).
    apply process_ok in Hprocess as (st & _ & -> & _ & -> & _).
    unfold stage_percentages. rewrite lookup_omap, fold_count_stage.
    destruct (decide (in_stage name (processed_tasks st) = []))
      as [Hnil|Hgroup]; [discriminate|].
    simpl.
    destruct (0 <? Z.of_nat (length (in_stage name (processed_tasks st))));
      [|discriminate].
    intros Hentry. injection Hentry as <-. simpl.
    pose proof (count_category_partition (in_stage name (processed_tasks st)))
      as Hsum.
    repeat split; try assumption; lia.
  - simpl. rewrite lookup_empty. discriminate.
Qed.

(** X6: every processed task is counted in the group of its project
    stage. *)
Lemma every_task_has_a_group `{PyRuntime} (remote : Remote)
    (current_time : datetime) (processed_task : Processed.t) :
  processed_task ∈ Response.tasks (get_tasks_data remote current_time).1 →
  is_Some (Response.stage_statistics (get_tasks_data remote current_time).1
           !! Processed.project_stage_name processed_task).
Proof.
  unfold get_tasks_data.
  destruct (try_body remote current_time []) as [[data|e] trace] eqn:Hrun;
    simpl fst.
  - apply try_body_ok in Hrun
      as (uid & tasks & projects & users & task_stages & project_stages
          & _ & _ & _ & Hprocess).
    apply process_ok in Hprocess as (st & _ & -> & _ & -> & _).
    intros Hin. unfold stage_percentages.
    rewrite lookup_omap, fold_count_stage.
    set (group := in_stage _ (processed_tasks st)).
    assert (processed_task ∈ group) as Hgroup.
    { unfold group, in_stage. apply list_elem_of_filter. auto. }
    destruct (decide (group = [])) as [Hnil|_].
    { rewrite Hnil in Hgroup. apply elem_of_nil in Hgroup. destruct Hgroup. }
    simpl. destruct group as [|task group']; [apply elem_of_nil in Hgroup;
                                               destruct Hgroup|].
    simpl length. rewrite (proj2 (Z.ltb_lt 0 _)) by lia. eauto.
  - simpl. intros Hin. apply elem_of_nil in Hin. destruct Hin.
Qed.

Lemma every_task_has_a_group_witness :
  is_Some (Response.stage_statistics
             (get_tasks_data sample_backend monday_morning).1 !! "Build").
Proof.
  apply (every_task_has_a_group sample_backend monday_morning
           processed_overdue_task).
  vm_compute. left.
Defined.

(** ** Binary64 arithmetic *)

(** ** Shifts *)

Lemma shr_1_m mrs : 0 ≤ shr_m mrs → shr_m (shr_1 mrs) = shr_m mrs / 2.
Proof.
  destruct mrs as [m r s]. simpl. intros Hm.
  rewrite <- Z.div2_div.
  destruct m as [|[p|p|]|p]; try reflexivity. lia.
Qed.

Lemma iter_pos_shr_1 p mrs :
  0 ≤ shr_m mrs →
  shr_m (SpecFloat.iter_pos shr_1 p mrs) = shr_m mrs / 2 ^ Zpos p.
Proof.
  revert mrs. induction p as [p IH|p IH|]; intros mrs Hm; simpl SpecFloat.iter_pos.
  - assert (0 ≤ shr_m (shr_1 mrs)) as H1
      by (rewrite shr_1_m by assumption; apply Z.div_pos; lia).
    assert (0 ≤ shr_m (SpecFloat.iter_pos shr_1 p (shr_1 mrs))) as H2
      by (rewrite IH by assumption; apply Z.div_pos; lia).
    rewrite IH, IH, shr_1_m by assumption.
    rewrite !Z.div_div by lia.
    f_equal. replace (Z.pos p~1) with (Z.pos p + Z.pos p + 1) by lia.
    rewrite !Z.pow_add_r by lia. ring.
  - assert (0 ≤ shr_m (SpecFloat.iter_pos shr_1 p mrs)) as H2
      by (rewrite IH by assumption; apply Z.div_pos; lia).
    rewrite IH, IH by assumption.
    rewrite !Z.div_div by lia.
    f_equal. replace (Z.pos p~0) with (Z.pos p + Z.pos p) by lia.
    rewrite !Z.pow_add_r by lia. ring.
  - rewrite shr_1_m by assumption. reflexivity.
Qed.

Lemma fexp_eq e : fexp mant_dig max_exp e = Z.max (e - 53) (-1074).
Proof. reflexivity. Qed.

Lemma shr_spec mrs e n :
  0 ≤ shr_m mrs →
  shr_m (shr mrs e n).1 = shr_m mrs / 2 ^ Z.max 0 n
  ∧ (shr mrs e n).2 = e + Z.max 0 n.
Proof.
  intros Hm. unfold shr. destruct n as [|p|p]; simpl.
  - rewrite Z.div_1_r. lia.
  - rewrite iter_pos_shr_1 by assumption. split; reflexivity.
  - rewrite Z.div_1_r. lia.
Qed.

Lemma shr_m_of_loc m l : shr_m (shr_record_of_loc m l) = m.
Proof. destruct l as [|[]]; reflexivity. Qed.

Lemma shr_fexp_spec m e l :
  0 ≤ m →
  shr_m (shr_fexp mant_dig max_exp m e l).1 = m / 2 ^ shift_of m e
  ∧ (shr_fexp mant_dig max_exp m e l).2 = e + shift_of m e.
Proof.
  intros Hm. unfold shr_fexp, shift_of.
  pose proof (shr_spec (shr_record_of_loc m l) e
                (fexp mant_dig max_exp (Zdigits2 m + e) - e)) as Hshr.
  rewrite shr_m_of_loc in Hshr. apply Hshr. exact Hm.
Qed.

Lemma round_nearest_even_bounds m l :
  m ≤ round_nearest_even m l ≤ m + 1.
Proof.
  unfold round_nearest_even. destruct l as [|[]]; try lia.
  destruct (Z.even m); lia.
Qed.

(** ** Digits *)

Lemma digits2_pos_size p : digits2_pos p = Pos.size p.
Proof. induction p; simpl; congruence. Qed.

Lemma Zdigits2_pos_bounds p :
  2 ^ (Zdigits2 (Zpos p) - 1) ≤ Zpos p < 2 ^ Zdigits2 (Zpos p).
Proof.
  simpl Zdigits2. rewrite digits2_pos_size.
  pose proof (Pos.size_gt p) as Hgt. pose proof (Pos.size_le p) as Hle.
  apply Pos2Z.pos_lt_pos in Hgt. apply Pos2Z.pos_le_pos in Hle.
  rewrite Pos2Z.inj_pow in Hgt, Hle.
  split; [|exact Hgt].
  replace (Z.pos (Pos.size p)) with (Z.pos (Pos.size p) - 1 + 1) in Hle by lia.
  rewrite Z.pow_add_r in Hle by lia. change (2 ^ 1) with 2 in Hle. lia.
Qed.

Lemma Zdigits2_le m k : 0 ≤ k → 0 ≤ m < 2 ^ k → Zdigits2 m ≤ k.
Proof.
  intros Hk [Hm Hlt]. destruct m as [|p|p]; [simpl; lia| |lia].
  destruct (Zdigits2_pos_bounds p) as [Hlow _].
  destruct (Z.le_gt_cases (Zdigits2 (Z.pos p)) k) as [Hle|Hgt]; [exact Hle|].
  assert (2 ^ k ≤ 2 ^ (Zdigits2 (Z.pos p) - 1))
    by (apply Z.pow_le_mono_r; lia).
  lia.
Qed.

Lemma Zdigits2_nonneg m : 0 ≤ Zdigits2 m.
Proof. destruct m; simpl; lia. Qed.

(** ** Rounding *)

Lemma shift_of_bound m e K :
  0 ≤ m < 2 ^ (K - e) → e ≤ K - 53 → -1021 ≤ K →
  0 ≤ shift_of m e ∧ e + shift_of m e ≤ K - 53.
Proof.
  intros Hm He HK. unfold shift_of. rewrite fexp_eq.
  pose proof (Zdigits2_le m (K - e) ltac:(lia) Hm). lia.
Qed.

(** [binary_round_aux] on a mantissa below [2 ^ K] in value: the result is
    at most two units of its last place below and one above. *)
Lemma binary_round_aux_bound mx ex lx K :
  0 ≤ mx < 2 ^ (K - ex) → ex ≤ K - 53 → -1021 ≤ K ≤ 1023 →
  ∃ m3 e3,
    binary_round_aux mant_dig max_exp false mx ex lx = float_of_mantissa m3 e3
    ∧ 0 ≤ m3 ≤ 2 ^ (K - e3)
    ∧ ex ≤ e3 ≤ K - 52
    ∧ mx - 2 * 2 ^ (e3 - ex) < m3 * 2 ^ (e3 - ex) ≤ mx + 2 ^ (e3 - ex).
Proof.
  intros Hmx Hex HK. unfold binary_round_aux.
  destruct (shr_fexp_spec mx ex lx ltac:(lia)) as [Hm1 He1].
  destruct (shr_fexp mant_dig max_exp mx ex lx) as [mrs1 e1]. simpl in Hm1, He1.
  destruct (shift_of_bound mx ex K Hmx Hex ltac:(lia)) as [Hn1 Hn1'].
  set (n1 := shift_of mx ex) in *.
  set (m1 := shr_m mrs1) in *.
  pose proof (round_nearest_even_bounds m1 (loc_of_shr_record mrs1)) as Hm2.
  set (m2 := round_nearest_even m1 (loc_of_shr_record mrs1)) in *.
  assert (0 < 2 ^ n1) as HP1 by (apply Z.pow_pos_nonneg; lia).
  assert (0 ≤ m1) as Hm1pos by (rewrite Hm1; apply Z.div_pos; lia).
  assert (m1 < 2 ^ (K - e1)) as Hm1lt.
  { rewrite Hm1. apply Z.div_lt_upper_bound; [exact HP1|].
    rewrite <- Z.pow_add_r by lia.
    replace (n1 + (K - e1)) with (K - ex) by lia. lia. }
  assert (0 ≤ m2 < 2 ^ (K + 1 - e1)) as Hm2lt.
  { split; [lia|].
    replace (K + 1 - e1) with (K - e1 + 1) by lia.
    rewrite Z.pow_add_r by lia. change (2 ^ 1) with 2. lia. }
  destruct (shr_fexp_spec m2 e1 loc_Exact ltac:(lia)) as [Hm3 He3].
  destruct (shr_fexp mant_dig max_exp m2 e1 loc_Exact) as [mrs3 e3].
  simpl in Hm3, He3.
  destruct (shift_of_bound m2 e1 (K + 1) Hm2lt ltac:(lia) ltac:(lia))
    as [Hn3 Hn3'].
  set (n3 := shift_of m2 e1) in *.
  set (m3 := shr_m mrs3) in *.
  assert (0 < 2 ^ n3) as HP by (apply Z.pow_pos_nonneg; lia).
  assert (0 ≤ m3) as Hm3pos by (rewrite Hm3; apply Z.div_pos; lia).
  assert (m3 ≤ 2 ^ (K - e3)) as Hm3le.
  { rewrite Hm3. apply Z.div_le_upper_bound; [exact HP|].
    rewrite <- Z.pow_add_r by lia.
    replace (n3 + (K - e3)) with (K - e1) by lia. lia. }
  exists m3, e3.
  split.
  { unfold float_of_mantissa. destruct m3; try reflexivity.
    replace (e3 <=? max_exp - mant_dig) with true; [reflexivity|].
    symmetry. apply Z.leb_le. unfold max_exp, mant_dig. lia. }
  split; [lia|]. split; [lia|].
  replace (e3 - ex) with (n1 + n3) by lia.
  rewrite Z.pow_add_r by lia.
  pose proof (Z.mul_div_le mx (2 ^ n1) HP1) as Hf1.
  pose proof (Z.mul_succ_div_gt mx (2 ^ n1) HP1) as Hf1'.
  pose proof (Z.mul_div_le m2 (2 ^ n3) HP) as Hf3.
  pose proof (Z.mul_succ_div_gt m2 (2 ^ n3) HP) as Hf3'.
  rewrite <- Hm1 in Hf1, Hf1'. rewrite <- Hm3 in Hf3, Hf3'.
  set (P1 := 2 ^ n1) in *. set (P := 2 ^ n3) in *.
  clearbody P1 P m1 m2 m3. clear - Hf1 Hf1' Hf3 Hf3' Hm2 HP1 HP Hm1pos Hm3pos.
  split; nia.
Qed.

(** ** Values *)

Lemma pow2_nonneg_exp n : 0 ≤ n → (pow2 n == inject_Z (2 ^ n))%Q.
Proof.
  intros Hn. unfold pow2. rewrite (proj2 (Z.leb_le 0 n)) by exact Hn.
  reflexivity.
Qed.

Lemma pow2_Qpower e : (pow2 e == 2 ^ e)%Q.
Proof.
  unfold pow2. destruct (0 <=? e) eqn:He.
  - apply Z.leb_le in He. rewrite Zpower_Qpower by exact He. reflexivity.
  - apply Z.leb_gt in He. rewrite Zpower_Qpower by lia.
    rewrite <- Qpower_opp. replace (- - e) with e by lia. reflexivity.
Qed.

Lemma pow2_add a b : (pow2 (a + b) == pow2 a * pow2 b)%Q.
Proof. rewrite !pow2_Qpower. apply Qpower_plus. discriminate. Qed.

Lemma pow2_pos e : (0 < pow2 e)%Q.
Proof. rewrite pow2_Qpower. apply Qpower_0_lt. reflexivity. Qed.

Lemma pow2_le a b : a ≤ b → (pow2 a <= pow2 b)%Q.
Proof.
  intros Hab. replace b with (a + (b - a)) by lia. rewrite pow2_add.
  assert (1 <= pow2 (b - a))%Q as Hone.
  { rewrite pow2_nonneg_exp by lia. change 1%Q with (inject_Z 1).
    rewrite <- Zle_Qle. pose proof (Z.pow_pos_nonneg 2 (b - a)). lia. }
  pose proof (pow2_pos a). nra.
Qed.

Lemma F2Q_float_of_mantissa m e :
  0 ≤ m → (F2Q (float_of_mantissa m e) == inject_Z m * pow2 e)%Q.
Proof.
  intros Hm. destruct m as [|p|p]; simpl; [ring|reflexivity|lia].
Qed.

(** The value of what [binary_round_aux] returns. *)
Lemma binary_round_aux_value mx ex lx K :
  0 ≤ mx < 2 ^ (K - ex) → ex ≤ K - 53 → -1021 ≤ K ≤ 1023 →
  ∃ m3 e3,
    binary_round_aux mant_dig max_exp false mx ex lx = float_of_mantissa m3 e3
    ∧ 0 ≤ m3 ≤ 2 ^ (K - e3)
    ∧ ex ≤ e3 ≤ K - 52
    ∧ (inject_Z mx * pow2 ex - 2 * pow2 (K - 52)
       <= F2Q (float_of_mantissa m3 e3)
       <= inject_Z mx * pow2 ex + pow2 (K - 52))%Q.
Proof.
  intros Hmx Hex HK.
  destruct (binary_round_aux_bound mx ex lx K Hmx Hex HK)
    as (m3 & e3 & Hr & Hm3 & He3 & Hlow & Hup).
  exists m3, e3. repeat (split; [assumption|]).
  rewrite F2Q_float_of_mantissa by lia.
  assert (pow2 e3 == inject_Z (2 ^ (e3 - ex)) * pow2 ex)%Q as Hulp.
  { replace e3 with ((e3 - ex) + ex) at 1 by lia.
    rewrite pow2_add, pow2_nonneg_exp by lia. reflexivity. }
  pose proof (pow2_le e3 (K - 52) ltac:(lia)) as Hle.
  pose proof (pow2_pos ex) as Hpos.
  assert (mx ≤ m3 * 2 ^ (e3 - ex) + 2 * 2 ^ (e3 - ex)) as Hlow' by lia.
  clear Hlow. rewrite Zle_Qle in Hlow', Hup.
  rewrite inject_Z_plus, !inject_Z_mult in Hlow'.
  rewrite inject_Z_plus, inject_Z_mult in Hup.
  change (inject_Z 2) with 2%Q in Hlow'.
  set (M := inject_Z m3) in *. set (P := inject_Z (2 ^ (e3 - ex))) in *.
  set (X := inject_Z mx) in *. set (E := pow2 ex) in *.
  set (B := pow2 (K - 52)) in *. set (U := pow2 e3) in *.
  clearbody M P X E B U.
  assert (M * U == M * P * E)%Q as Hval by (rewrite Hulp; ring).
  split; nra.
Qed.

(** ** Division of ints *)

Lemma Zdigits2_diff a b K :
  Zpos a < Zpos b * 2 ^ K → 0 ≤ K →
  Zdigits2 (Zpos a) - Zdigits2 (Zpos b) ≤ K.
Proof.
  intros Hab HK.
  destruct (Zdigits2_pos_bounds a) as [Ha _].
  destruct (Zdigits2_pos_bounds b) as [_ Hb].
  pose proof (Zdigits2_nonneg (Zpos b)) as Hdb.
  assert (Zpos b * 2 ^ K < 2 ^ (Zdigits2 (Zpos b) + K)) as Hlt.
  { rewrite Z.pow_add_r by lia.
    apply Z.mul_lt_mono_pos_r; [apply Z.pow_pos_nonneg; lia|exact Hb]. }
  assert (2 ^ (Zdigits2 (Z.pos a) - 1) < 2 ^ (Zdigits2 (Z.pos b) + K))
    as Hpow by lia.
  apply Z.pow_lt_mono_r_iff in Hpow; lia.
Qed.

Lemma true_divide_value (a b : positive) K :
  Zpos a < Zpos b * 2 ^ K → 0 ≤ K ≤ 1023 →
  ∃ m3 e3,
    true_divide (Zpos a) b = float_of_mantissa m3 e3
    ∧ 0 ≤ m3 ≤ 2 ^ (K - e3)
    ∧ e3 ≤ K - 52
    ∧ (inject_Z (Zpos a) / inject_Z (Zpos b) - 3 * pow2 (K - 52)
       <= F2Q (float_of_mantissa m3 e3)
       <= inject_Z (Zpos a) / inject_Z (Zpos b) + pow2 (K - 52))%Q.
Proof.
  intros Hab HK. unfold true_divide, SFdiv, SFdiv_core_binary.
  cbv zeta.
  pose proof (Zdigits2_diff a b K Hab ltac:(lia)) as Hdigits.
  rewrite fexp_eq, !Z.add_0_r. change (0 - 0) with 0. rewrite Z.sub_0_l.
  set (d := Zdigits2 (Z.pos a) - Zdigits2 (Z.pos b)) in *.
  set (e' := Z.min (Z.max (d - 53) (-1074)) 0).
  assert (-1074 ≤ e' ≤ K - 53 ∧ e' ≤ 0) as He' by (unfold e'; lia).
  set (s := - e').
  assert (match s with
          | 0 => Z.pos a
          | Z.pos _ => Z.shiftl (Z.pos a) s
          | Z.neg _ => 0
          end = Z.pos a * 2 ^ s) as ->.
  { assert (0 ≤ s) as Hs by (unfold s; lia).
    destruct s as [|p|p] eqn:Hseq; [change (2 ^ 0) with 1; lia| |lia].
    apply Z.shiftl_mul_pow2. lia. }
  assert (0 ≤ s) as Hs by (unfold s; lia).
  assert (0 < 2 ^ s) as HS by (apply Z.pow_pos_nonneg; lia).
  pose proof (Z.mul_div_le (Z.pos a * 2 ^ s) (Z.pos b) ltac:(lia)) as Hfloor.
  pose proof (Z.mul_succ_div_gt (Z.pos a * 2 ^ s) (Z.pos b) ltac:(lia))
    as Hfloor'.
  assert (0 ≤ Z.pos a * 2 ^ s / Z.pos b) as Hq by (apply Z.div_pos; lia).
  change (IntDef.Z.div_eucl (Z.pos a * 2 ^ s) (Z.pos b))
    with (Z.div_eucl (Z.pos a * 2 ^ s) (Z.pos b)).
  unfold Z.div in Hfloor, Hfloor', Hq.
  destruct (Z.div_eucl (Z.pos a * 2 ^ s) (Z.pos b)) as [q r].
  simpl fst in Hfloor, Hfloor', Hq. simpl xorb.
  assert (q < 2 ^ (K - e')) as Hqlt.
  { replace (K - e') with (K + s) by (unfold s; lia).
    rewrite Z.pow_add_r by lia. nia. }
  destruct (binary_round_aux_value q e' (new_location (Z.pos b) r) K
              ltac:(lia) ltac:(lia) ltac:(lia))
    as (m3 & e3 & Hr & Hm3 & He3 & Hlow & Hup).
  exists m3, e3. split; [exact Hr|]. split; [exact Hm3|]. split; [lia|].
  assert (pow2 e' * inject_Z (2 ^ s) == 1)%Q as Hunit.
  { rewrite <- pow2_nonneg_exp, <- pow2_add by lia.
    replace (e' + s) with 0 by (unfold s; lia). reflexivity. }
  pose proof (pow2_le e' (K - 52) ltac:(lia)) as Hle.
  pose proof (pow2_pos e') as Hpos.
  assert (0 < inject_Z (Z.pos b))%Q as HB
    by (change 0%Q with (inject_Z 0); rewrite <- Zlt_Qlt; lia).
  assert (inject_Z (Z.pos a) / inject_Z (Z.pos b) * inject_Z (Z.pos b)
          == inject_Z (Z.pos a))%Q as Hdiv
    by (field; intros Hz; rewrite Hz in HB; apply (Qlt_irrefl _ HB)).
  apply Z.lt_le_incl in Hfloor'.
  rewrite Zle_Qle in Hfloor, Hfloor'.
  rewrite <- Z.add_1_r in Hfloor'.
  rewrite !inject_Z_mult in Hfloor, Hfloor'.
  rewrite inject_Z_plus in Hfloor'.
  change (inject_Z 1) with 1%Q in Hfloor'.
  set (A := inject_Z (Z.pos a)) in *. set (B := inject_Z (Z.pos b)) in *.
  set (D := (A / B)%Q) in *. set (X := inject_Z q) in *.
  set (E := pow2 e') in *. set (S := inject_Z (2 ^ s)) in *.
  set (V := F2Q (float_of_mantissa m3 e3)) in *.
  set (U := pow2 (K - 52)) in *.
  clearbody A B D X E S V U.
  assert (A * S * E == A)%Q as HA
    by (transitivity (A * (E * S))%Q; [ring|rewrite Hunit; ring]).
  assert (X * E * B <= D * B)%Q as H1 by (rewrite Hdiv; nra).
  assert (D * B <= (X + 1) * E * B)%Q as H2 by (rewrite Hdiv; nra).
  split; nra.
Qed.

(** ** Multiplication by 100 *)

Lemma float_of_int_100 :
  float_of_int 100 = S754_finite false 7036874417766400 (-46).
Proof. reflexivity. Qed.

Lemma mul_100_value m e :
  0 ≤ m ≤ 2 ^ (1 - e) → e ≤ 1 →
  ∃ m3 e3,
    SFmul mant_dig max_exp (float_of_mantissa m e) (float_of_int 100)
    = float_of_mantissa m3 e3
    ∧ 0 ≤ m3 ≤ 2 ^ (8 - e3)
    ∧ e3 ≤ -44
    ∧ (100 * F2Q (float_of_mantissa m e) - 2 * pow2 (-44)
       <= F2Q (float_of_mantissa m3 e3)
       <= 100 * F2Q (float_of_mantissa m e) + pow2 (-44))%Q.
Proof.
  intros Hm He. rewrite float_of_int_100.
  pose proof (pow2_pos (-44)) as Hulp.
  destruct m as [|p|p]; [| |lia].
  - exists 0, (-44). simpl float_of_mantissa. simpl SFmul.
    split; [reflexivity|]. split; [split; [lia|apply Z.pow_nonneg; lia]|].
    split; [lia|]. simpl F2Q. split; lra.
  - simpl float_of_mantissa. simpl SFmul.
    assert (Z.pos (p * 7036874417766400) < 2 ^ (8 - (e + -46))) as Hlt.
    { rewrite Pos2Z.inj_mul.
      replace (8 - (e + -46)) with (1 - e + 53) by lia.
      rewrite Z.pow_add_r by lia. change (2 ^ 53) with 9007199254740992.
      nia. }
    destruct (binary_round_aux_value (Z.pos (p * 7036874417766400))
                (e + -46) loc_Exact 8 ltac:(lia) ltac:(lia) ltac:(lia))
      as (m3 & e3 & Hr & Hm3 & He3 & Hlow & Hup).
    exists m3, e3. split; [exact Hr|]. split; [exact Hm3|]. split; [lia|].
    assert (inject_Z (Z.pos (p * 7036874417766400)) * pow2 (e + -46)
            == 100 * F2Q (S754_finite false p e))%Q as Hexact.
    { rewrite Pos2Z.inj_mul, inject_Z_mult, pow2_add. simpl F2Q.
      assert (inject_Z 7036874417766400 * pow2 (-46) == 100)%Q as H100
        by reflexivity.
      rewrite <- H100. ring. }
    rewrite Hexact in Hlow, Hup. change (8 - 52) with (-44) in Hlow, Hup.
    split; assumption.
Qed.

(** ** Rounding to one decimal *)

Lemma round_half_even_div_bounds n d :
  0 < d → 0 ≤ n →
  0 ≤ round_half_even_div n d
  ∧ 2 * round_half_even_div n d * d ≤ 2 * n + d
  ∧ 2 * n ≤ 2 * round_half_even_div n d * d + d.
Proof.
  intros Hd Hn. unfold round_half_even_div.
  pose proof (Z.div_mod n d ltac:(lia)) as Hdm.
  pose proof (Z.mod_pos_bound n d Hd) as Hmod.
  pose proof (Z.div_pos n d Hn Hd) as Hq.
  set (q := n / d) in *. set (r := n mod d) in *.
  clearbody q r.
  destruct (Z.compare_spec (2 * r) d) as [Hcmp|Hcmp|Hcmp].
  - destruct (Z.even q); repeat split; nia.
  - repeat split; nia.
  - repeat split; nia.
Qed.

Lemma round_1_value m e :
  0 ≤ m ≤ 2 ^ (8 - e) → e < 0 →
  ∃ m3 e3,
    round (float_of_mantissa m e) 1 = float_of_mantissa m3 e3
    ∧ 0 ≤ m3
    ∧ (F2Q (float_of_mantissa m e) - (1 # 20) - 3 * pow2 (-43)
       <= F2Q (float_of_mantissa m3 e3)
       <= F2Q (float_of_mantissa m e) + (1 # 20) + pow2 (-43))%Q.
Proof.
  intros Hm He.
  pose proof (pow2_pos (-43)) as Hulp.
  destruct m as [|p|p]; [| |lia].
  - exists 0, 0. simpl. split; [reflexivity|]. split; [lia|]. split; lra.
  - simpl float_of_mantissa. unfold round. cbv zeta.
    change (10 ^ Z.of_nat 1) with 10. change (Z.to_pos 10) with 10%positive.
    rewrite (proj2 (Z.leb_gt 0 e)) by exact He. simpl cond_Zopp.
    rewrite (Z.mul_comm (Z.pos p) 10).
    assert (0 < 2 ^ (- e)) as HD by (apply Z.pow_pos_nonneg; lia).
    destruct (round_half_even_div_bounds (10 * Z.pos p) (2 ^ (- e)) HD
                ltac:(lia)) as (HT & Hup & Hlow).
    assert (2 ^ (8 - e) = 256 * 2 ^ (- e)) as Hpow.
    { replace (8 - e) with (8 + - e) by lia. rewrite Z.pow_add_r by lia.
      reflexivity. }
    set (T := round_half_even_div (10 * Z.pos p) (2 ^ (- e))) in *.
    set (D := 2 ^ (- e)) in *.
    assert (T < 10 * 2 ^ 9) as HTlt.
    { change (10 * 2 ^ 9) with 5120.
      destruct (Z.lt_ge_cases T 5120) as [Hlt|Hge]; [exact Hlt|].
      exfalso. clearbody T D. nia. }
    assert (pow2 e * inject_Z D == 1)%Q as Hunit.
    { unfold D. rewrite <- pow2_nonneg_exp, <- pow2_add by lia.
      replace (e + - e) with 0 by lia. reflexivity. }
    assert (0 < inject_Z D)%Q as HDq
      by (change 0%Q with (inject_Z 0); rewrite <- Zlt_Qlt; lia).
    rewrite Zle_Qle in Hup, Hlow.
    rewrite inject_Z_plus, !inject_Z_mult in Hup, Hlow.
    change (inject_Z 2) with 2%Q in *. change (inject_Z 10) with 10%Q in *.
    pose proof (pow2_pos e) as HE.
    destruct T as [|t|t] eqn:HTeq; [| |lia].
    + exists 0, 0. split; [reflexivity|]. split; [lia|].
      simpl F2Q. change (inject_Z 0) with 0%Q in *.
      set (P := inject_Z (Z.pos p)) in *. set (E := pow2 e) in *.
      set (DQ := inject_Z D) in *. clearbody P E DQ.
      assert (P * E * DQ == P)%Q as HP
        by (transitivity (P * (E * DQ))%Q; [ring|rewrite Hunit; ring]).
      split; nra.
    + destruct (true_divide_value t 10 9 HTlt ltac:(lia))
        as (m3 & e3 & Hr & Hm3 & He3 & Hlow3 & Hup3).
      exists m3, e3. split; [exact Hr|]. split; [lia|].
      change (9 - 52) with (-43) in *.
      change (F2Q (S754_finite false p e))
        with (inject_Z (Z.pos p) * pow2 e)%Q.
      assert (inject_Z (Z.pos t) / inject_Z 10 * 10 == inject_Z (Z.pos t))%Q
        as Hten by (change (inject_Z 10) with 10%Q; field).
      set (TQ := inject_Z (Z.pos t)) in *.
      set (Q10 := (TQ / inject_Z 10)%Q) in *.
      set (V := F2Q (float_of_mantissa m3 e3)) in *.
      set (P := inject_Z (Z.pos p)) in *. set (E := pow2 e) in *.
      set (DQ := inject_Z D) in *. set (U := pow2 (-43)) in *.
      clearbody TQ Q10 V P E DQ U.
      assert (P * E * DQ == P)%Q as HP
        by (transitivity (P * (E * DQ))%Q; [ring|rewrite Hunit; ring]).
      assert ((Q10 - P * E - (1 # 20)) * DQ <= 0)%Q as H1 by nra.
      assert (0 <= (Q10 - P * E + (1 # 20)) * DQ)%Q as H2 by nra.
      assert (Q10 <= P * E + (1 # 20))%Q as H1'
        by (apply Qnot_lt_le; intros Hc; nra).
      assert (P * E - (1 # 20) <= Q10)%Q as H2'
        by (apply Qnot_lt_le; intros Hc; nra).
      split; lra.
Qed.

(** ** Percentages *)

(** A percentage is a finite float within 0.051 of the exact ratio. *)
Lemma percentage_value count total :
  0 ≤ count ≤ total → 0 < total →
  is_finite (percentage count total) = true
  ∧ (inject_Z (100 * count) / inject_Z total - (51 # 1000)
     <= F2Q (percentage count total)
     <= inject_Z (100 * count) / inject_Z total + (51 # 1000))%Q.
Proof.
  intros Hcount Htotal.
  destruct total as [|t|t]; [lia| |lia].
  assert (0 < inject_Z (Z.pos t))%Q as HT
    by (change 0%Q with (inject_Z 0); rewrite <- Zlt_Qlt; lia).
  assert (¬ inject_Z (Z.pos t) == 0)%Q as HT0
    by (intros Hz; rewrite Hz in HT; apply (Qlt_irrefl _ HT)).
  unfold percentage. simpl Z.to_pos.
  destruct count as [|c|c]; [| |lia].
  - rewrite float_of_int_100. simpl.
    assert (inject_Z 0 / inject_Z (Z.pos t) == 0)%Q as -> by (field; exact HT0).
    split; [reflexivity|]. split; lra.
  - destruct (true_divide_value c t 1 ltac:(change (2 ^ 1) with 2; lia)
                ltac:(lia)) as (m & e & Hq & Hm & He & Hlow & Hup).
    rewrite Hq.
    destruct (mul_100_value m e Hm ltac:(lia))
      as (m' & e' & Hx & Hm' & He' & Hlow' & Hup').
    rewrite Hx.
    destruct (round_1_value m' e' Hm' ltac:(lia))
      as (m'' & e'' & Hp & Hm'' & Hlow'' & Hup'').
    rewrite Hp.
    split; [destruct m''; [reflexivity|reflexivity|lia]|].
    assert (inject_Z (100 * Z.pos c) / inject_Z (Z.pos t)
            == 100 * (inject_Z (Z.pos c) / inject_Z (Z.pos t)))%Q as ->
      by (rewrite inject_Z_mult; change (inject_Z 100) with 100%Q;
          field; exact HT0).
    change (pow2 (1 - 52)) with (1 # 2251799813685248)%Q in *.
    change (pow2 (-44)) with (1 # 17592186044416)%Q in *.
    change (pow2 (-43)) with (1 # 8796093022208)%Q in *.
    split; lra.
Qed.


(** ** The percentages of a group *)

(** X1: in every group of [stage_statistics] the counts are the sizes of
    the four categories among the processed tasks of that project stage,
    and they add up to the group's total, which is positive. *)
Theorem stage_statistics_consistent `{PyRuntime} (remote : Remote)
    (current_time : datetime) (name : string) (entry : StagePercentages.t) :
  Response.stage_statistics (get_tasks_data remote current_time).1 !! name
  = Some entry →
  let group :=
    in_stage name (Response.tasks (get_tasks_data remote current_time).1) in
  0 < StagePercentages.total entry
  ∧ StagePercentages.total entry = Z.of_nat (length group)
  ∧ StagePercentages.done_count entry = count_category Done group
  ∧ StagePercentages.cancelled_count entry = count_category Cancelled group
  ∧ StagePercentages.overdue_count entry = count_category Overdue group
  ∧ StagePercentages.in_progress_count entry
    = count_category InProgress group
  ∧ StagePercentages.total entry
    = StagePercentages.done_count entry
      + StagePercentages.cancelled_count entry
      + StagePercentages.overdue_count entry
      + StagePercentages.in_progress_count entry.
Proof.
  intros Hentry group.
  destruct (stage_statistics_entry remote current_time name entry Hentry)
    as (Hgroup & Htotal & Hd & Hc & Ho & Hi & Hsum & _).
  fold group in Hgroup, Htotal, Hd, Hc, Ho, Hi.
  repeat (split; [|assumption || (split; [assumption|])]); try assumption.
  rewrite Htotal. destruct group; [congruence|simpl length; lia].
Qed.

Lemma stage_statistics_consistent_witness :
  let group :=
    in_stage "Build"
      (Response.tasks (get_tasks_data sample_backend monday_morning).1) in
  0 < 2
  ∧ 2 = Z.of_nat (length group)
  ∧ 0 = count_category Done group
  ∧ 1 = count_category Cancelled group
  ∧ 1 = count_category Overdue group
  ∧ 0 = count_category InProgress group
  ∧ 2 = 0 + 1 + 1 + 0.
Proof.
  apply (stage_statistics_consistent sample_backend monday_morning "Build"
           (StagePercentages.mk 2 (percentage 0 2) (percentage 1 2)
              (percentage 0 2) (percentage 1 2) 0 1 0 1)).
  vm_compute. reflexivity.
Defined.



(** ** Weeks, splits and bounds of the working days *)

Section Weeks.
Implicit Types a b c : datetime.

Lemma weekdays_in_split lo mid hi :
  lo ≤ mid ≤ hi → weekdays_in lo hi = weekdays_in lo mid + weekdays_in mid hi.
Proof.
  intros Hle. unfold weekdays_in.
  replace (hi - lo) with ((mid - lo) + (hi - mid)) by lia.
  rewrite seqZ_app by lia. rewrite filter_app, length_app.
  replace (lo + (mid - lo)) with mid by lia. lia.
Qed.




(** From a start that is not later than the end, the loop counts the
    weekdays up to the end date, the end date included exactly when the
    start's time of day is earlier. *)
Lemma calculate_working_days_le a b :
  dt_ltb b a = false →
  calculate_working_days a b
  = weekdays_in (toordinal a)
      (toordinal b + (if time_of_day a <? time_of_day b then 1 else 0))
  ∧ toordinal a
    ≤ toordinal b + (if time_of_day a <? time_of_day b then 1 else 0).
Proof.
  intros Hle. rewrite calculate_working_days_spec.
  unfold dt_geb, dt_ltb in *.
  apply orb_false_iff in Hle as [Hord Htime].
  apply Z.ltb_ge in Hord.
  destruct (toordinal a <? toordinal b) eqn:Hlt; simpl.
  - apply Z.ltb_lt in Hlt.
    split; [reflexivity|]. destruct (time_of_day a <? time_of_day b); lia.
  - apply Z.ltb_ge in Hlt.
    assert (toordinal a = toordinal b) as Heq by lia.
    rewrite Heq, Z.eqb_refl in *. simpl in *.
    destruct (time_of_day a <? time_of_day b) eqn:Ht; simpl.
    + split; [reflexivity|lia].
    + rewrite weekdays_in_empty by lia. split; [reflexivity|lia].
Qed.




(** X11: an end date on a Saturday or a Sunday adds nothing: whatever
    the times of day, the count is the number of weekdays among the dates
    from the start date up to the day before the end date. *)
Theorem calculate_working_days_weekend_deadline a b :
  dt_ltb a b = true →
  is_weekend b = true →
  calculate_working_days a b = weekdays_in (toordinal a) (toordinal b).
Proof.
  intros Hlt Hweekend.
  assert (dt_ltb b a = false) as Hle.
  { unfold dt_ltb in *. apply orb_false_iff.
    apply orb_true_iff in Hlt as [Hlt|Hlt].
    - apply Z.ltb_lt in Hlt. split; [apply Z.ltb_ge; lia|].
      rewrite (proj2 (Z.eqb_neq _ _)) by lia. reflexivity.
    - apply andb_true_iff in Hlt as [Heq Hlt].
      apply Z.eqb_eq in Heq. apply Z.ltb_lt in Hlt.
      split; [apply Z.ltb_ge; lia|]. apply andb_false_iff. right.
      apply Z.ltb_ge. lia. }
  destruct (calculate_working_days_le a b Hle) as [-> Hord].
  destruct (time_of_day a <? time_of_day b) eqn:Htime;
    [|rewrite Z.add_0_r; reflexivity].
  assert (toordinal a ≤ toordinal b) as Hord'.
  { unfold dt_ltb in Hle. apply orb_false_iff in Hle as [Hle _].
    apply Z.ltb_ge in Hle. exact Hle. }
  rewrite (weekdays_in_split (toordinal a) (toordinal b)) by lia.
  rewrite (weekdays_in_first (toordinal b)) by lia.
  rewrite (weekdays_in_empty (toordinal b + 1)) by lia.
  unfold is_weekend, weekday in Hweekend. unfold is_weekday.
  apply Z.leb_le in Hweekend.
  rewrite (proj2 (Z.ltb_ge _ _)) by lia. lia.
Qed.

Lemma calculate_working_days_upper a b :
  calculate_working_days a b ≤ calculate_calendar_days a b + 1
  ∧ (time_of_day b ≤ time_of_day a →
     calculate_working_days a b ≤ calculate_calendar_days a b).
Proof.
  rewrite calculate_working_days_spec. unfold calculate_calendar_days.
  destruct (dt_geb a b) eqn:Hge; [split; [lia|intros; lia]|].
  unfold dt_geb in Hge. apply negb_false_iff in Hge.
  pose proof (weekdays_in_bounds (toordinal a)
                (toordinal b
                 + (if time_of_day a <? time_of_day b then 1 else 0)))
    as [_ Hup].
  assert (toordinal a ≤ toordinal b) as Hord.
  { unfold dt_ltb in Hge. apply orb_true_iff in Hge as [Hlt|Heq].
    - apply Z.ltb_lt in Hlt. lia.
    - apply andb_true_iff in Heq as [Heq _]. apply Z.eqb_eq in Heq. lia. }
  split.
  - destruct (time_of_day a <? time_of_day b); lia.
  - intros Htime. rewrite (proj2 (Z.ltb_ge _ _)) in * by lia. lia.
Qed.

End Weeks.



Lemma calculate_working_days_weekend_deadline_witness :
  calculate_working_days monday_morning saturday_noon
  = weekdays_in (toordinal monday_morning) (toordinal saturday_noon).
Proof.
  apply (calculate_working_days_weekend_deadline monday_morning saturday_noon);
    reflexivity.
Defined.


(** ** What a processed task takes from its task *)

Section Passing.
Context `{PyRuntime}.

(** The fields that the loop copies from the task. *)
Lemma process_task_copies (L : Lookups) (current_time : datetime)
    (task : Task.t) (processed_task : Processed.t) :
  process_task L current_time task = Ok processed_task →
  Processed.id processed_task = Task.id task
  ∧ Processed.name processed_task = Task.name task
  ∧ Processed.deadline processed_task = Task.date_deadline task
  ∧ Processed.task_state processed_task = Task.state task
  ∧ Processed.task_state_label processed_task
    = default "Unknown" (Task.state task ≫= (state_labels !!.)).
Proof.
  unfold process_task. intros Hpt.
  destruct (parse_deadline (Task.date_deadline task)); [|discriminate].
  simpl in Hpt. injection Hpt as <-. simpl. repeat split.
Qed.

(** A response without [error] is what the body of the [try] returned. *)
Lemma get_tasks_data_ok (remote : Remote) (current_time : datetime) :
  Response.error (get_tasks_data remote current_time).1 = None →
  try_body remote current_time []
  = (Ok (get_tasks_data remote current_time).1,
     (get_tasks_data remote current_time).2).
Proof.
  unfold get_tasks_data.
  destruct (try_body remote current_time []) as [[data|e] trace];
    [reflexivity|discriminate].
Qed.

(** What a run without [error] went through. *)
Lemma get_tasks_data_run (remote : Remote) (current_time : datetime) :
  Response.error (get_tasks_data remote current_time).1 = None →
  ∃ uid tasks projects users task_stages project_stages processed,
    authenticate remote = RpcResult (Some uid)
    ∧ uid ≠ 0
    ∧ search_read_tasks remote uid = RpcResult tasks
    ∧ Forall2 (λ task processed_task,
                 process_task
                   (build_lookups projects users task_stages project_stages)
                   current_time task = Ok processed_task)
        tasks processed
    ∧ Response.tasks (get_tasks_data remote current_time).1 = processed.
Proof.
  intros Hok. apply get_tasks_data_ok in Hok.
  apply try_body_ok in Hok
    as (uid & tasks & projects & users & task_stages & project_stages
        & Hauth & Huid & Htasks & Hprocess).
  apply process_ok in Hprocess as (st & Hloop & -> & _).
  apply for_each_loop_body in Hloop as (processed & Hall & -> & _).
  exists uid, tasks, projects, users, task_stages, project_stages, processed.
  auto.
Qed.


(** The day counts that [schedule] gives. *)
Lemma schedule_counts is_done is_cancelled deadline_dt current_time :
  let s := schedule is_done is_cancelled deadline_dt current_time in
  0 ≤ days_overdue s
  ∧ 0 ≤ calendar_days_to_deadline s
  ∧ 0 ≤ working_days_to_deadline s
  ∧ working_days_to_deadline s ≤ calendar_days_to_deadline s + 1
  ∧ (days_overdue s ≠ 0 →
     calendar_days_to_deadline s = 0 ∧ working_days_to_deadline s = 0)
  ∧ (is_deadline_today s = true →
     is_overdue s = false ∧ days_overdue s = 0
     ∧ calendar_days_to_deadline s = 0).
Proof.
  unfold schedule.
  destruct deadline_dt as [d|];
    [|simpl; split; [lia|]; split; [lia|]; split; [lia|]; split; [lia|];
      split; [lia|discriminate]].
  destruct (negb is_done && negb is_cancelled);
    [|simpl; split; [lia|]; split; [lia|]; split; [lia|]; split; [lia|];
      split; [lia|auto]].
  destruct (toordinal d <? toordinal current_time) eqn:Hpast; simpl.
  - apply Z.ltb_lt in Hpast. unfold is_today.
    split; [lia|]. split; [lia|]. split; [lia|]. split; [lia|].
    split; [auto|]. intros Htoday. apply Z.eqb_eq in Htoday. lia.
  - apply Z.ltb_ge in Hpast.
    pose proof (calculate_working_days_nonneg current_time d) as Hw0.
    pose proof (calculate_working_days_upper current_time d) as [Hw1 _].
    pose proof (calculate_calendar_days_nonneg current_time d) as Hc0.
    split; [lia|]. split; [lia|]. split; [lia|]. split; [lia|].
    split; [lia|].
    unfold is_today. intros Htoday. apply Z.eqb_eq in Htoday.
    split; [reflexivity|]. split; [reflexivity|].
    unfold calculate_calendar_days. destruct (dt_geb current_time d); lia.
Qed.

(** X13: a run without [error] returns one processed task per task that
    the search returned, in the same order, each with the id, the name,
    the deadline, the state, the closed flag and the stage id of its task,
    and with one assignee per user id. *)
Theorem tasks_are_kept_in_order (remote : Remote) (current_time : datetime) :
  Response.error (get_tasks_data remote current_time).1 = None →
  ∃ uid tasks,
    authenticate remote = RpcResult (Some uid)
    ∧ search_read_tasks remote uid = RpcResult tasks
    ∧ Forall2
        (λ task processed_task,
           Processed.id processed_task = Task.id task
           ∧ Processed.name processed_task = Task.name task
           ∧ Processed.deadline processed_task = Task.date_deadline task
           ∧ Processed.task_state processed_task = Task.state task
           ∧ Processed.is_done processed_task = Task.is_closed task
           ∧ Processed.stage_id processed_task = fst <$> Task.stage_id task
           ∧ length (Processed.assignees processed_task)
             = length (Task.user_ids task))
        tasks (Response.tasks (get_tasks_data remote current_time).1).
Proof.
  intros Hok.
  destruct (get_tasks_data_run remote current_time Hok)
    as (uid & tasks & projects & users & task_stages & project_stages
        & processed & Hauth & _ & Htasks & Hall & ->).
  exists uid, tasks. split; [exact Hauth|]. split; [exact Htasks|].
  eapply Forall2_impl; [exact Hall|].
  intros task pt Hpt. simpl in Hpt.
  destruct (process_task_copies _ _ _ _ Hpt) as (Hid & Hname & Hdl & Hst & _).
  destruct (process_task_ok _ _ _ _ Hpt) as (_ & _ & Hdone & _).
  destruct (process_task_names _ _ _ _ Hpt)
    as (_ & _ & Hstage & _ & _ & _ & Hassignees).
  rewrite Hassignees, length_fmap. auto 10.
Qed.

(** X14: the names of a processed task are those of the records that
    were read, the last record with the id when several have it: the name,
    the manager and the stage of the task's project, the name of that
    stage, the name of the task's stage and the names of its users. The
    names that the task's own [project_id] and [stage_id] pairs carry are
    not used. *)
Theorem names_come_from_the_records (projects : list Project.t)
    (users task_stages project_stages : list Named.t)
    (current_time : datetime) (task : Task.t) (processed_task : Processed.t) :
  process_task (build_lookups projects users task_stages project_stages)
    current_time task = Ok processed_task →
  (∀ pid pname proj,
     Task.project_id task = Some (pid, pname) →
     last_with_id Project.id pid projects = Some proj →
     Processed.project_name processed_task = Project.name proj
     ∧ Processed.manager processed_task
       = match Project.user_id proj with
         | Some (_, manager_name) => manager_name
         | None => "No Manager"
         end
     ∧ Processed.project_stage_id processed_task
       = fst <$> Project.stage_id proj
     ∧ ∀ sid stage,
         Processed.project_stage_id processed_task = Some sid →
         last_with_id Named.id sid project_stages = Some stage →
         Processed.project_stage_name processed_task = Named.name stage)
  ∧ (∀ sid sname stage,
       Task.stage_id task = Some (sid, sname) →
       last_with_id Named.id sid task_stages = Some stage →
       Processed.stage_name processed_task = Named.name stage)
  ∧ (∀ i uid user,
       Task.user_ids task !! i = Some uid →
       last_with_id Named.id uid users = Some user →
       Processed.assignees processed_task !! i = Some (Named.name user)).
Proof.
  intros Hpt.
  apply process_task_names in Hpt
    as (Hname & Hmanager & _ & Hstage & Hpsid & Hpsname & Hassignees).
  simpl in Hname, Hmanager, Hstage, Hpsid, Hpsname, Hassignees.
  split; [|split].
  - intros pid pname proj Hpid Hlast.
    rewrite Hname, Hmanager, Hpsname, Hpsid, Hpid. unfold dict_get. simpl.
    rewrite !to_dict_lookup, Hlast. simpl.
    split; [reflexivity|]. split; [reflexivity|]. split; [reflexivity|].
    intros sid stage -> Hstage'. simpl.
    rewrite to_dict_lookup, Hstage'. reflexivity.
  - intros sid sname stage Hsid Hlast. rewrite Hstage, Hsid.
    unfold dict_get. simpl. rewrite to_dict_lookup, Hlast. reflexivity.
  - intros i uid user Hi Hlast.
    rewrite Hassignees, list_lookup_fmap, Hi. simpl.
    rewrite to_dict_lookup, Hlast. reflexivity.
Qed.

(** X15: a task whose deadline is [False] or the empty string is
    processed whatever [fromisoformat] accepts, and is neither overdue nor
    due today nor due on a weekend, with 0 for its three day counts. *)
Theorem task_without_deadline (L : Lookups) (current_time : datetime)
    (task : Task.t) :
  Task.date_deadline task = None ∨ Task.date_deadline task = Some "" →
  ∃ processed_task,
    process_task L current_time task = Ok processed_task
    ∧ Processed.is_overdue processed_task = false
    ∧ Processed.days_overdue processed_task = 0
    ∧ Processed.calendar_days_to_deadline processed_task = 0
    ∧ Processed.working_days_to_deadline processed_task = 0
    ∧ Processed.is_deadline_today processed_task = false
    ∧ Processed.is_deadline_weekend processed_task = false.
Proof.
  intros Hdeadline.
  assert (parse_deadline (Task.date_deadline task) = Ok None) as Hparse
    by (destruct Hdeadline as [-> | ->]; reflexivity).
  destruct (process_task_parsed L current_time task _ Hparse) as [pt Hpt].
  exists pt. split; [exact Hpt|].
  apply process_task_ok in Hpt as (deadline_dt & Hparse' & _ & _ & Hfields).
  rewrite Hparse in Hparse'. injection Hparse' as <-.
  destruct (Hfields _ eq_refl) as (-> & -> & -> & -> & -> & ->).
  simpl. auto 10.
Qed.

(** X16: in the response of every run the three day counts of a task
    are not negative; the working days are at most the calendar days plus
    one; a task with days overdue has no days to its deadline; and a task
    due today is not overdue and has 0 days overdue and 0 calendar
    days. *)
Theorem day_counts_of_a_task (remote : Remote) (current_time : datetime)
    (processed_task : Processed.t) :
  processed_task ∈ Response.tasks (get_tasks_data remote current_time).1 →
  0 ≤ Processed.days_overdue processed_task
  ∧ 0 ≤ Processed.calendar_days_to_deadline processed_task
  ∧ 0 ≤ Processed.working_days_to_deadline processed_task
  ∧ Processed.working_days_to_deadline processed_task
    ≤ Processed.calendar_days_to_deadline processed_task + 1
  ∧ (Processed.days_overdue processed_task ≠ 0 →
     Processed.calendar_days_to_deadline processed_task = 0
     ∧ Processed.working_days_to_deadline processed_task = 0)
  ∧ (Processed.is_deadline_today processed_task = true →
     Processed.is_overdue processed_task = false
     ∧ Processed.days_overdue processed_task = 0
     ∧ Processed.calendar_days_to_deadline processed_task = 0).
Proof.
  intros Hin.
  apply get_tasks_data_tasks in Hin as (L & task & Hpt).
  apply process_task_ok in Hpt as (deadline_dt & _ & _ & _ & Hs).
  destruct (Hs _ eq_refl) as (-> & -> & -> & -> & -> & _).
  apply schedule_counts.
Qed.

End Passing.

Lemma tasks_are_kept_in_order_witness :
  ∃ uid tasks,
    authenticate sample_backend = RpcResult (Some uid)
    ∧ search_read_tasks sample_backend uid = RpcResult tasks
    ∧ Forall2
        (λ task processed_task,
           Processed.id processed_task = Task.id task
           ∧ Processed.name processed_task = Task.name task
           ∧ Processed.deadline processed_task = Task.date_deadline task
           ∧ Processed.task_state processed_task = Task.state task
           ∧ Processed.is_done processed_task = Task.is_closed task
           ∧ Processed.stage_id processed_task = fst <$> Task.stage_id task
           ∧ length (Processed.assignees processed_task)
             = length (Task.user_ids task))
        tasks (Response.tasks (get_tasks_data sample_backend monday_morning).1).
Proof.
  apply (tasks_are_kept_in_order sample_backend monday_morning).
  vm_compute. reflexivity.
Defined.

Lemma names_come_from_the_records_witness :
  Processed.project_name processed_overdue_task = "Website"
  ∧ Processed.manager processed_overdue_task = "Ada"
  ∧ Processed.project_stage_id processed_overdue_task = Some 1
  ∧ Processed.assignees processed_overdue_task !! 0%nat = Some "Ada".
Proof.
  assert (process_task sample_lookups monday_morning overdue_task
          = Ok processed_overdue_task) as Hpt by (vm_compute; reflexivity).
  destruct (names_come_from_the_records sample_projects sample_users []
              sample_project_stages monday_morning overdue_task
              processed_overdue_task Hpt)
    as (Hproject & _ & Hassignees).
  destruct (Hproject 10 "Website"
              (Project.mk 10 "Website" (Some (3, "Ada")) (Some (1, "Build")))
              eq_refl eq_refl)
    as (Hname & Hmanager & Hstage & _).
  split; [exact Hname|]. split; [exact Hmanager|]. split; [exact Hstage|].
  apply (Hassignees 0%nat 3 (Named.mk 3 "Ada")); reflexivity.
Defined.

Lemma task_without_deadline_witness :
  ∃ processed_task,
    process_task sample_lookups monday_morning undated_task
    = Ok processed_task
    ∧ Processed.is_overdue processed_task = false
    ∧ Processed.days_overdue processed_task = 0
    ∧ Processed.calendar_days_to_deadline processed_task = 0
    ∧ Processed.working_days_to_deadline processed_task = 0
    ∧ Processed.is_deadline_today processed_task = false
    ∧ Processed.is_deadline_weekend processed_task = false.
Proof.
  apply (task_without_deadline sample_lookups monday_morning undated_task).
  left. reflexivity.
Defined.

Lemma day_counts_of_a_task_witness :
  0 ≤ Processed.days_overdue processed_overdue_task
  ∧ Processed.calendar_days_to_deadline processed_overdue_task = 0
  ∧ Processed.working_days_to_deadline processed_overdue_task = 0.
Proof.
  destruct (day_counts_of_a_task sample_backend monday_morning
              processed_overdue_task)
    as (Hdays & _ & _ & _ & Hoverdue & _).
  - vm_compute. left.
  - split; [exact Hdays|]. apply Hoverdue. vm_compute. discriminate.
Defined.


(** ** The first failure ends the run *)

Section Stops.
Context (remote : Remote).

Lemma stops_json_rpc {A} (req : request) (response : http A) :
  request_error remote req = raised (json_rpc req response []).1 →
  stops_at_failure remote (json_rpc req response).
Proof.
  intros Hreq trace r trace' Hrun Htrace.
  unfold json_rpc in *. simpl in Hreq. injection Hrun as <- <-.
  destruct response; simpl in *;
    try (right; eexists trace, req; split; [reflexivity|];
         split; [exact Htrace|exact Hreq]).
  apply Forall_app. split; [exact Htrace|]. constructor; [exact Hreq|constructor].
Qed.

Lemma stops_lift {A} (r : result A) : stops_at_failure remote (lift r).
Proof.
  intros trace r' trace' Hrun Htrace. injection Hrun as <- <-.
  destruct r; simpl; auto.
Qed.

Lemma stops_ret {A} (a : A) : stops_at_failure remote (mret a : rpc A).
Proof.
  intros trace r' trace' Hrun Htrace. injection Hrun as <- <-. exact Htrace.
Qed.

Lemma stops_bind {A B} (m : rpc A) (k : A → rpc B) :
  stops_at_failure remote m → (∀ a, stops_at_failure remote (k a)) →
  stops_at_failure remote (m ≫= k).
Proof.
  intros Hm Hk trace r trace' Hrun Htrace.
  unfold mbind, rpc_mbind, rpc_bind in Hrun.
  destruct (m trace) as [[a|msg] trace1] eqn:Hm1.
  - apply (Hk a trace1 r trace' Hrun). apply (Hm trace _ _ Hm1 Htrace).
  - injection Hrun as <- <-. apply (Hm trace _ _ Hm1 Htrace).
Qed.

Lemma stops_fetch_related (uid : Z) (tasks : list Task.t) :
  stops_at_failure remote (fetch_related remote uid tasks).
Proof.
  unfold fetch_related.
  destruct (collect_ids tasks) as [[project_ids user_ids] task_stage_ids].
  apply stops_bind; [apply stops_json_rpc; reflexivity|]. intros projects.
  apply stops_bind; [apply stops_json_rpc; reflexivity|]. intros users.
  apply stops_bind; [apply stops_json_rpc; reflexivity|]. intros task_stages.
  apply stops_bind; [|intros; apply stops_ret].
  destruct (bool_decide (collect_project_stage_ids projects = ∅));
    [apply stops_ret|apply stops_json_rpc; reflexivity].
Qed.

Lemma stops_try_body `{PyRuntime} (current_time : datetime) :
  stops_at_failure remote (try_body remote current_time).
Proof.
  unfold try_body.
  apply stops_bind; [apply stops_json_rpc; reflexivity|].
  intros [uid|]; [|apply stops_lift].
  destruct (uid =? 0); [apply stops_lift|].
  apply stops_bind; [apply stops_json_rpc; reflexivity|]. intros tasks.
  apply stops_bind; [apply stops_fetch_related|].
  intros [[[projects users] task_stages] project_stages]. apply stops_lift.
Qed.
End Stops.

(** X18: a request that the backend does not answer with a result is
    the last one of the run: nothing is sent after it, the response holds
    no task, and its [error] is the message of the exception that
    [json_rpc] raised for that request. *)
Theorem failed_request_ends_the_run `{PyRuntime} (remote : Remote)
    (current_time : datetime) (i : nat) (req : request) (msg : string) :
  (get_tasks_data remote current_time).2 !! i = Some req →
  request_error remote req = Some msg →
  S i = length (get_tasks_data remote current_time).2
  ∧ Response.error (get_tasks_data remote current_time).1 = Some msg
  ∧ Response.tasks (get_tasks_data remote current_time).1 = [].
Proof.
  intros Hi Hreq.
  pose proof (stops_try_body remote current_time []) as Hstops.
  unfold get_tasks_data in *.
  destruct (try_body remote current_time []) as [r trace].
  specialize (Hstops r trace eq_refl (Forall_nil_2 _)).
  assert (∀ l, Forall (λ req, request_error remote req = None) l →
               l !! i = Some req → False) as Hok.
  { intros l Hall Hl. rewrite Forall_lookup in Hall.
    specialize (Hall i req Hl). simpl in Hall. congruence. }
  destruct r as [data|e]; simpl in *.
  - destruct (Hok trace Hstops Hi).
  - destruct Hstops as [Hall|(trace' & req' & -> & Hall & Hreq')].
    + destruct (Hok trace Hall Hi).
    + destruct (decide (i < length trace')%nat) as [Hlt|Hge].
      * rewrite lookup_app_l in Hi by exact Hlt. destruct (Hok trace' Hall Hi).
      * rewrite lookup_app_r in Hi by lia.
        destruct (i - length trace')%nat as [|n] eqn:Hn; [|discriminate].
        simpl in Hi. injection Hi as ->. rewrite length_app. simpl.
        split; [lia|]. split; [congruence|reflexivity].
Qed.

Lemma failed_request_ends_the_run_witness :
  1%nat = length (get_tasks_data down_backend monday_morning).2
  ∧ Response.error (get_tasks_data down_backend monday_morning).1
    = Some "503 Server Error: Service Unavailable"
  ∧ Response.tasks (get_tasks_data down_backend monday_morning).1 = [].
Proof.
  apply (failed_request_ends_the_run down_backend monday_morning 0
           Authenticate "503 Server Error: Service Unavailable");
    reflexivity.
Defined.

(** ** The order of the requests *)

(** X19: every run sends its requests in one order: the authentication,
    the search of the tasks, then the reads of the projects, of the users,
    of the task stages and of the project stages, all under one user id.
    A run sends a prefix of that list, the authentication at least, and at
    least the first five when it returns without [error]. *)
Theorem requests_in_order `{PyRuntime} (remote : Remote)
    (current_time : datetime) :
  ∃ uid project_ids user_ids task_stage_ids project_stage_ids,
    (get_tasks_data remote current_time).2
      `prefix_of` [Authenticate; SearchRead uid;
                   Read uid "project.project" project_ids;
                   Read uid "res.users" user_ids;
                   Read uid "project.task.type" task_stage_ids;
                   Read uid "project.project.stage" project_stage_ids]
    ∧ (get_tasks_data remote current_time).2 ≠ []
    ∧ (Response.error (get_tasks_data remote current_time).1 = None →
       (5 ≤ length (get_tasks_data remote current_time).2)%nat).
Proof.
  unfold get_tasks_data, try_body, fetch_related, mbind, rpc_mbind, rpc_bind,
    json_rpc, lift, mret, rpc_mret.
  destruct (authenticate remote) as [| | | | |[uid|]]; simpl;
    try (exists 0, [], [], [], []; split; [eexists; reflexivity|];
         split; [discriminate|discriminate]).
  destruct (uid =? 0); simpl;
    try (exists 0, [], [], [], []; split; [eexists; reflexivity|];
         split; [discriminate|discriminate]).
  destruct (search_read_tasks remote uid) as [| | | | |tasks]; simpl;
    try (exists uid, [], [], [], []; split; [eexists; reflexivity|];
         split; [discriminate|discriminate]).
  destruct (collect_ids tasks) as [[project_ids user_ids] task_stage_ids].
  exists uid, (elements project_ids), (elements user_ids),
    (elements task_stage_ids).
  destruct (read_projects remote uid _) as [| | | | |projects]; simpl;
    try (exists []; split; [eexists; reflexivity|];
         split; [discriminate|discriminate]).
  exists (elements (collect_project_stage_ids projects)).
  destruct (read_users remote uid _) as [| | | | |users]; simpl;
    try (split; [eexists; reflexivity|];
         split; [discriminate|discriminate]).
  destruct (read_task_stages remote uid _) as [| | | | |task_stages]; simpl;
    try (split; [eexists; reflexivity|];
         split; [discriminate|discriminate]).
  destruct (bool_decide (collect_project_stage_ids projects = ∅)); simpl.
  - destruct (process _ _ _ _ _ _); simpl;
      (split; [eexists; reflexivity|]; split; [discriminate|intros; lia]).
  - destruct (read_project_stages remote uid _) as [| | | | |project_stages];
      simpl;
      try (split; [eexists; reflexivity|];
           split; [discriminate|discriminate]).
    destruct (process _ _ _ _ _ _); simpl;
      (split; [eexists; reflexivity|]; split; [discriminate|intros; lia]).
Qed.

(** ** The ids that are read *)

Section Ids.
Implicit Types (task : Task.t) (tasks : list Task.t).

Lemma collect_ids_snoc tasks task :
  collect_ids (tasks ++ [task])
  = (match Task.project_id task with
     | Some (i, _) => (collect_ids tasks).1.1 ∪ {[i]}
     | None => (collect_ids tasks).1.1
     end,
     (collect_ids tasks).1.2 ∪ list_to_set (Task.user_ids task),
     match Task.stage_id task with
     | Some (i, _) => (collect_ids tasks).2 ∪ {[i]}
     | None => (collect_ids tasks).2
     end).
Proof.
  unfold collect_ids. rewrite fold_left_app. simpl.
  destruct (fold_left _ tasks _) as [[project_ids user_ids] task_stage_ids].
  reflexivity.
Qed.

(** The three sets hold the ids that the tasks refer to. *)
Lemma collect_ids_spec tasks (i : Z) :
  (i ∈ (collect_ids tasks).1.1
   ↔ ∃ task, task ∈ tasks ∧ fst <$> Task.project_id task = Some i)
  ∧ (i ∈ (collect_ids tasks).1.2
     ↔ ∃ task, task ∈ tasks ∧ i ∈ Task.user_ids task)
  ∧ (i ∈ (collect_ids tasks).2
     ↔ ∃ task, task ∈ tasks ∧ fst <$> Task.stage_id task = Some i).
Proof.
  induction tasks as [|task tasks (IHp & IHu & IHs)] using rev_ind.
  - simpl. repeat split; intros Hin;
      try (apply elem_of_empty in Hin; destruct Hin);
      destruct Hin as (task & Hin & _); apply elem_of_nil in Hin;
      destruct Hin.
  - rewrite collect_ids_snoc. simpl.
    assert (∀ P : Task.t → Prop,
              (∃ t, t ∈ tasks ++ [task] ∧ P t)
              ↔ (∃ t, t ∈ tasks ∧ P t) ∨ P task) as Hsnoc.
    { intros P. split.
      - intros (t & Hin & HP). apply elem_of_app in Hin as [Hin|Hin].
        + left. eauto.
        + apply list_elem_of_singleton in Hin as ->. right. exact HP.
      - intros [(t & Hin & HP)|HP].
        + exists t. split; [apply elem_of_app; left; exact Hin|exact HP].
        + exists task. split; [apply elem_of_app; right; left|exact HP]. }
    rewrite !Hsnoc, <- IHp, <- IHu, <- IHs.
    split; [|split].
    + destruct (Task.project_id task) as [[j name]|]; simpl.
      * rewrite elem_of_union, elem_of_singleton.
        split; intros [?|?]; auto; [right; congruence|right; congruence].
      * split; [auto|]. intros [?|?]; [assumption|discriminate].
    + rewrite elem_of_union, elem_of_list_to_set. reflexivity.
    + destruct (Task.stage_id task) as [[j name]|]; simpl.
      * rewrite elem_of_union, elem_of_singleton.
        split; intros [?|?]; auto; [right; congruence|right; congruence].
      * split; [auto|]. intros [?|?]; [assumption|discriminate].
Qed.

Lemma collect_project_stage_ids_spec (projects : list Project.t) (i : Z) :
  i ∈ collect_project_stage_ids projects
  ↔ ∃ proj, proj ∈ projects ∧ fst <$> Project.stage_id proj = Some i.
Proof.
  unfold collect_project_stage_ids.
  induction projects as [|proj projects IH] using rev_ind.
  - simpl. split; intros Hin; [apply elem_of_empty in Hin; destruct Hin|].
    destruct Hin as (proj & Hin & _). apply elem_of_nil in Hin. destruct Hin.
  - rewrite fold_left_app. simpl.
    assert ((∃ p, p ∈ projects ++ [proj] ∧ fst <$> Project.stage_id p = Some i)
            ↔ (∃ p, p ∈ projects ∧ fst <$> Project.stage_id p = Some i)
              ∨ fst <$> Project.stage_id proj = Some i) as ->.
    { split.
      - intros (p & Hin & HP). apply elem_of_app in Hin as [Hin|Hin].
        + left. eauto.
        + apply list_elem_of_singleton in Hin as ->. right. exact HP.
      - intros [(p & Hin & HP)|HP].
        + exists p. split; [apply elem_of_app; left; exact Hin|exact HP].
        + exists proj. split; [apply elem_of_app; right; left|exact HP]. }
    rewrite <- IH.
    destruct (Project.stage_id proj) as [[j name]|]; simpl.
    + rewrite elem_of_union, elem_of_singleton.
      split; intros [?|?]; auto; [right; congruence|right; congruence].
    + split; [auto|]. intros [?|?]; [assumption|discriminate].
Qed.
End Ids.

Section SendsIds.
Context (P : request → Prop).

(** What is sent after a request may depend on its answer. *)
Lemma sends_json_rpc_bind {A B} (req : request) (response : http A)
    (k : A → rpc B) :
  P req → (∀ a, response = RpcResult a → sends P (k a)) →
  sends P (json_rpc req response ≫= k).
Proof.
  intros Hreq Hk trace r trace' Hrun Htrace.
  unfold mbind, rpc_mbind, rpc_bind in Hrun.
  assert (Forall P (trace ++ [req])) as Hsent.
  { apply Forall_app. split; [exact Htrace|]. constructor; [exact Hreq|constructor]. }
  destruct (json_rpc req response trace) as [[a|msg] trace1] eqn:Hm1.
  - apply json_rpc_ok in Hm1 as [-> ->].
    apply (Hk a eq_refl _ r trace' Hrun Hsent).
  - unfold json_rpc in Hm1. injection Hm1 as _ <-. injection Hrun as _ <-.
    exact Hsent.
Qed.

Lemma sends_fetch_related_ids (remote : Remote) (uid : Z)
    (tasks : list Task.t) :
  P (Read uid "project.project" (elements (collect_ids tasks).1.1)) →
  P (Read uid "res.users" (elements (collect_ids tasks).1.2)) →
  P (Read uid "project.task.type" (elements (collect_ids tasks).2)) →
  (∀ projects,
     read_projects remote uid (elements (collect_ids tasks).1.1)
     = RpcResult projects →
     collect_project_stage_ids projects ≠ ∅ →
     P (Read uid "project.project.stage"
          (elements (collect_project_stage_ids projects)))) →
  sends P (fetch_related remote uid tasks).
Proof.
  unfold fetch_related.
  destruct (collect_ids tasks) as [[project_ids user_ids] task_stage_ids].
  simpl. intros Hp Hu Hs Hps.
  apply sends_json_rpc_bind; [exact Hp|]. intros projects Hprojects.
  apply sends_bind; [apply sends_json_rpc; exact Hu|]. intros users.
  apply sends_bind; [apply sends_json_rpc; exact Hs|]. intros task_stages.
  apply sends_bind; [|intros; apply sends_ret].
  destruct (bool_decide (collect_project_stage_ids projects = ∅)) eqn:Hempty;
    [apply sends_ret|].
  apply sends_json_rpc, Hps; [exact Hprojects|].
  apply bool_decide_eq_false in Hempty. exact Hempty.
Qed.

Lemma sends_try_body `{PyRuntime} (remote : Remote) (current_time : datetime) :
  P Authenticate →
  (∀ uid, authenticate remote = RpcResult (Some uid) → P (SearchRead uid)) →
  (∀ uid tasks,
     authenticate remote = RpcResult (Some uid) →
     search_read_tasks remote uid = RpcResult tasks →
     sends P (fetch_related remote uid tasks)) →
  sends P (try_body remote current_time).
Proof.
  intros Hauth Hsearch Hfetch. unfold try_body.
  apply sends_json_rpc_bind; [exact Hauth|].
  intros [uid|] Huid; [|apply sends_lift].
  destruct (uid =? 0); [apply sends_lift|].
  apply sends_json_rpc_bind; [apply Hsearch; exact Huid|].
  intros tasks Htasks.
  apply sends_bind; [apply Hfetch; assumption|].
  intros [[[projects users] task_stages] project_stages]. apply sends_lift.
Qed.

Lemma sends_get_tasks_data `{PyRuntime} (remote : Remote)
    (current_time : datetime) (req : request) :
  sends P (try_body remote current_time) →
  req ∈ (get_tasks_data remote current_time).2 → P req.
Proof.
  intros Hsends.
  assert (Forall P (get_tasks_data remote current_time).2) as Hall.
  { unfold get_tasks_data.
    destruct (try_body remote current_time []) as [[data|e] trace] eqn:Hrun;
      exact (Hsends [] _ _ Hrun (Forall_nil_2 _)). }
  rewrite Forall_forall in Hall. apply Hall.
Qed.
End SendsIds.

(** X20: the reads of the projects, of the users and of the task stages
    ask for the ids that the tasks of the search refer to, each id once:
    the project ids, the user ids and the stage ids of the tasks. *)
Theorem reads_ask_for_the_ids_of_the_tasks `{PyRuntime} (remote : Remote)
    (current_time : datetime) (uid : Z) (tasks : list Task.t)
    (model : string) (ids : list Z) :
  search_read_tasks remote uid = RpcResult tasks →
  Read uid model ids ∈ (get_tasks_data remote current_time).2 →
  NoDup ids
  ∧ (model = "project.project" →
     ∀ i, i ∈ ids
          ↔ ∃ task, task ∈ tasks ∧ fst <$> Task.project_id task = Some i)
  ∧ (model = "res.users" →
     ∀ i, i ∈ ids ↔ ∃ task, task ∈ tasks ∧ i ∈ Task.user_ids task)
  ∧ (model = "project.task.type" →
     ∀ i, i ∈ ids
          ↔ ∃ task, task ∈ tasks ∧ fst <$> Task.stage_id task = Some i).
Proof.
  intros Htasks Hin.
  refine (sends_get_tasks_data
            (λ req, ∀ model ids, req = Read uid model ids → _)
            remote current_time _ _ Hin model ids eq_refl).
  apply sends_try_body; [discriminate|discriminate|].
  intros uid' tasks' _ Htasks'.
  destruct (decide (uid' = uid)) as [->|Hne].
  - assert (tasks' = tasks) as -> by congruence.
    apply sends_fetch_related_ids.
    + intros ? ? [= <- <-]. split; [apply NoDup_elements|].
      split; [|split; [discriminate|discriminate]].
      intros _ i. rewrite elem_of_elements. apply collect_ids_spec.
    + intros ? ? [= <- <-]. split; [apply NoDup_elements|].
      split; [discriminate|]. split; [|discriminate].
      intros _ i. rewrite elem_of_elements. apply collect_ids_spec.
    + intros ? ? [= <- <-]. split; [apply NoDup_elements|].
      split; [discriminate|]. split; [discriminate|].
      intros _ i. rewrite elem_of_elements. apply collect_ids_spec.
    + intros projects _ _ ? ? [= <- <-]. split; [apply NoDup_elements|].
      split; [discriminate|]. split; discriminate.
  - apply sends_fetch_related_ids; try intros projects _ _;
      intros ? ? [= ? ? ?]; congruence.
Qed.

Lemma reads_ask_for_the_ids_of_the_tasks_witness :
  NoDup [3; 4]
  ∧ ∀ i, i ∈ [3; 4]
         ↔ ∃ task,
             task ∈ [overdue_task; done_task; cancelled_task; open_task]
             ∧ i ∈ Task.user_ids task.
Proof.
  destruct (reads_ask_for_the_ids_of_the_tasks sample_backend monday_morning 2
              [overdue_task; done_task; cancelled_task; open_task]
              "res.users" [3; 4])
    as (Hnodup & _ & Husers & _).
  - reflexivity.
  - vm_compute. do 3 right. left.
  - split; [exact Hnodup|]. apply Husers. reflexivity.
Defined.

(** X21: the read of the project stages asks for the stage ids of the
    projects that the read of the projects returned, each id once. *)
Theorem project_stages_read_asks_for_the_stages_of_the_projects `{PyRuntime}
    (remote : Remote) (current_time : datetime) (uid : Z) (ids : list Z) :
  Read uid "project.project.stage" ids
    ∈ (get_tasks_data remote current_time).2 →
  ∃ project_ids projects,
    read_projects remote uid project_ids = RpcResult projects
    ∧ NoDup ids
    ∧ ∀ i, i ∈ ids
           ↔ ∃ proj, proj ∈ projects
                     ∧ fst <$> Project.stage_id proj = Some i.
Proof.
  intros Hin.
  refine (sends_get_tasks_data
            (λ req, ∀ ids, req = Read uid "project.project.stage" ids → _)
            remote current_time _ _ Hin ids eq_refl).
  apply sends_try_body; [discriminate|discriminate|].
  intros uid' tasks' _ Htasks'.
  apply sends_fetch_related_ids; try discriminate.
  intros projects Hprojects _ ? [= -> <-].
  exists (elements (collect_ids tasks').1.1), projects.
  split; [exact Hprojects|]. split; [apply NoDup_elements|].
  intros i. rewrite elem_of_elements. apply collect_project_stage_ids_spec.
Qed.

Lemma project_stages_read_asks_for_the_stages_of_the_projects_witness :
  ∃ project_ids projects,
    read_projects sample_backend 2 project_ids = RpcResult projects
    ∧ NoDup [1]
    ∧ ∀ i, i ∈ [1]
           ↔ ∃ proj, proj ∈ projects
                     ∧ fst <$> Project.stage_id proj = Some i.
Proof.
  apply (project_stages_read_asks_for_the_stages_of_the_projects
           sample_backend monday_morning 2 [1]).
  vm_compute. do 5 right. left.
Defined.

(** ** Runs that return and runs that fail *)

Section Outcome.
Context `{PyRuntime}.







End Outcome.



(** ** The groups add up *)

Section Sums.
Context {V : Type} (f : V → Z).

Lemma sum_over_empty : sum_over f ∅ = 0.
Proof. unfold sum_over. apply map_fold_empty. Qed.

Lemma sum_over_insert_new (m : gmap string V) (k : string) (v : V) :
  m !! k = None → sum_over f (<[k:=v]> m) = f v + sum_over f m.
Proof.
  intros Hnew. unfold sum_over.
  rewrite map_fold_insert_L; [reflexivity| |exact Hnew].
  intros. lia.
Qed.

Lemma sum_over_lookup (m : gmap string V) (k : string) (v : V) :
  m !! k = Some v → sum_over f m = f v + sum_over f (delete k m).
Proof.
  intros Hk. unfold sum_over.
  rewrite (map_fold_delete_L _ _ k v m); [reflexivity| |exact Hk].
  intros. lia.
Qed.

Lemma sum_over_insert (m : gmap string V) (k : string) (v : V) :
  sum_over f (<[k:=v]> m)
  = f v + sum_over f m - from_option f 0 (m !! k).
Proof.
  destruct (m !! k) as [v'|] eqn:Hk; simpl.
  - rewrite (sum_over_lookup m k v' Hk).
    rewrite <- (insert_delete_eq m k v).
    rewrite sum_over_insert_new by apply lookup_delete_eq. lia.
  - rewrite sum_over_insert_new by exact Hk. lia.
Qed.
End Sums.

(** A dict filtered and mapped entry by entry sums to the same when every
    entry is kept with its value. *)
Lemma sum_over_omap {A B} (h : A → option B) (f : A → Z) (g : B → Z)
    (m : gmap string A) :
  (∀ k a, m !! k = Some a → ∃ b, h a = Some b ∧ g b = f a) →
  sum_over g (omap h m) = sum_over f m.
Proof.
  induction m as [|k a m Hk IH] using map_ind; intros Hkept.
  - rewrite omap_empty, !sum_over_empty. reflexivity.
  - destruct (Hkept k a (lookup_insert_eq m k a)) as (b & Hb & Hg).
    rewrite (omap_insert_Some h m k a b Hb).
    rewrite !sum_over_insert_new; [|exact Hk|rewrite lookup_omap, Hk; reflexivity].
    rewrite Hg, IH; [reflexivity|].
    intros k' a' Hk'. apply (Hkept k' a').
    rewrite lookup_insert_ne; [exact Hk'|]. intros ->. congruence.
Qed.

Section StageSums.
Implicit Types (task : Processed.t) (tasks : list Processed.t).

(** A field of [stage_stats] that every task adds [weight] to, in the
    entry of its stage, sums over the stages to the sum of the weights. *)
Lemma sum_over_count_stage (f : StageStats.t → Z) (weight : Processed.t → Z)
    (F : list Processed.t → Z) tasks :
  f (StageStats.mk 0 0 0 0 0) = 0 →
  (∀ stats task, f (count_stage_entry stats task) = f stats + weight task) →
  F [] = 0 →
  (∀ tasks task, F (tasks ++ [task]) = F tasks + weight task) →
  sum_over f (fold_left count_stage tasks ∅) = F tasks.
Proof.
  intros Hzero Hentry Hnil Hsnoc.
  induction tasks as [|task tasks IH] using rev_ind.
  - simpl. rewrite sum_over_empty, Hnil. reflexivity.
  - rewrite fold_left_app, Hsnoc, <- IH. simpl. unfold count_stage at 1.
    rewrite sum_over_insert, Hentry.
    destruct (fold_left count_stage tasks ∅
              !! Processed.project_stage_name task); simpl; lia.
Qed.

Lemma stage_totals_sum tasks :
  sum_over StageStats.total (fold_left count_stage tasks ∅)
  = Z.of_nat (length tasks).
Proof.
  apply (sum_over_count_stage _ (λ _, 1) (λ tasks, Z.of_nat (length tasks)));
    try reflexivity.
  - intros stats task. unfold count_stage_entry.
    destruct (Processed.is_done task), (Processed.is_cancelled task),
      (Processed.is_overdue task); reflexivity.
  - intros. rewrite length_app. simpl. lia.
Qed.

Lemma stage_counts_sum (c : Category) (f : StageStats.t → Z) tasks :
  f (StageStats.mk 0 0 0 0 0) = 0 →
  (∀ stats task,
     f (count_stage_entry stats task)
     = f stats + (if decide (category task = c) then 1 else 0)) →
  sum_over f (fold_left count_stage tasks ∅) = count_category c tasks.
Proof.
  intros Hzero Hentry.
  apply (sum_over_count_stage _
           (λ task, if decide (category task = c) then 1 else 0)
           (count_category c));
    try assumption; [reflexivity|].
  intros. apply count_category_snoc.
Qed.

Lemma count_stage_entry_fields stats task :
  StageStats.done (count_stage_entry stats task)
  = StageStats.done stats + (if decide (category task = Done) then 1 else 0)
  ∧ StageStats.cancelled (count_stage_entry stats task)
    = StageStats.cancelled stats
      + (if decide (category task = Cancelled) then 1 else 0)
  ∧ StageStats.overdue (count_stage_entry stats task)
    = StageStats.overdue stats
      + (if decide (category task = Overdue) then 1 else 0)
  ∧ StageStats.in_progress (count_stage_entry stats task)
    = StageStats.in_progress stats
      + (if decide (category task = InProgress) then 1 else 0).
Proof.
  unfold count_stage_entry, category.
  destruct (Processed.is_done task), (Processed.is_cancelled task),
    (Processed.is_overdue task); simpl; repeat split; lia.
Qed.

(** The groups of [stage_percentages] keep the counts of [stage_stats]. *)
Lemma sum_over_stage_percentages tasks (f : StageStats.t → Z)
    (g : StagePercentages.t → Z) :
  (∀ total done overdue in_progress cancelled pd po pi pc,
     g (StagePercentages.mk total pd po pi pc done overdue in_progress
          cancelled)
     = f (StageStats.mk total done overdue in_progress cancelled)) →
  sum_over g (stage_percentages (fold_left count_stage tasks ∅))
  = sum_over f (fold_left count_stage tasks ∅).
Proof.
  intros Hfg. unfold stage_percentages. apply sum_over_omap.
  intros name stats Hname. rewrite fold_count_stage in Hname.
  destruct (decide (in_stage name tasks = [])) as [|Hgroup]; [discriminate|].
  injection Hname as <-. unfold stage_counts at 1. simpl.
  destruct (in_stage name tasks) as [|task group]; [congruence|].
  simpl length. rewrite (proj2 (Z.ltb_lt 0 _)) by lia.
  eexists. split; [reflexivity|]. rewrite Hfg. reflexivity.
Qed.
End StageSums.

(** X24: in the response of every run the groups of [stage_statistics]
    add up to [statistics]: the totals of the groups to the total, and
    their done, cancelled, overdue and in progress counts to the counts of
    the same name. *)
Theorem groups_add_up_to_the_statistics `{PyRuntime} (remote : Remote)
    (current_time : datetime) :
  let data := (get_tasks_data remote current_time).1 in
  let groups := Response.stage_statistics data in
  let statistics := Response.statistics data in
  sum_over StagePercentages.total groups = Statistics.total statistics
  ∧ sum_over StagePercentages.done_count groups = Statistics.done statistics
  ∧ sum_over StagePercentages.cancelled_count groups
    = Statistics.cancelled statistics
  ∧ sum_over StagePercentages.overdue_count groups
    = Statistics.overdue statistics
  ∧ sum_over StagePercentages.in_progress_count groups
    = Statistics.in_progress statistics.
Proof.
  unfold get_tasks_data.
  destruct (try_body remote current_time []) as [[data|e] trace] eqn:Hrun;
    cbv zeta; simpl fst.
  - apply try_body_ok in Hrun
      as (uid & tasks & projects & users & task_stages & project_stages
          & _ & _ & _ & Hprocess).
    apply process_ok in Hprocess as (st & Hloop & _ & -> & -> & _).
    apply for_each_loop_body in Hloop as (processed & _ & -> & -> & -> & ->).
    simpl.
    pose proof (count_category_partition processed) as Hsum.
    rewrite !(sum_over_stage_percentages processed StageStats.total)
      by reflexivity.
    rewrite (sum_over_stage_percentages processed StageStats.done)
      by reflexivity.
    rewrite (sum_over_stage_percentages processed StageStats.cancelled)
      by reflexivity.
    rewrite (sum_over_stage_percentages processed StageStats.overdue)
      by reflexivity.
    rewrite (sum_over_stage_percentages processed StageStats.in_progress)
      by reflexivity.
    rewrite stage_totals_sum.
    rewrite (stage_counts_sum Done), (stage_counts_sum Cancelled),
      (stage_counts_sum Overdue), (stage_counts_sum InProgress);
      try reflexivity; try (intros; apply count_stage_entry_fields).
    repeat split; lia.
  - simpl. rewrite !sum_over_empty. repeat split.
Qed.

(** ** Exact and approximate percentages *)

(** An int divided by itself is the float 1.0. *)
Lemma true_divide_self (t : positive) :
  true_divide (Zpos t) t = S754_finite false 4503599627370496 (-52).
Proof.
  unfold true_divide, SFdiv, SFdiv_core_binary. cbv zeta.
  rewrite fexp_eq, !Z.add_0_r, (Z.sub_diag (Zdigits2 (Z.pos t))).
  change (0 - 0) with 0.
  change (IntDef.Z.min (Z.max (0 - 53) (-1074)) 0) with (-53).
  change (0 - -53) with 53.
  change (IntDef.Z.shiftl (Z.pos t) 53) with (Z.shiftl (Z.pos t) 53).
  rewrite Z.shiftl_mul_pow2 by lia.
  change (IntDef.Z.div_eucl (Z.pos t * 2 ^ 53) (Z.pos t))
    with (Z.div_eucl (Z.pos t * 2 ^ 53) (Z.pos t)).
  pose proof (Z.div_mul (2 ^ 53) (Z.pos t) ltac:(lia)) as Hq.
  pose proof (Z.mod_mul (2 ^ 53) (Z.pos t) ltac:(lia)) as Hr.
  rewrite (Z.mul_comm (2 ^ 53)) in Hq, Hr.
  unfold Z.div in Hq. unfold Z.modulo in Hr.
  destruct (Z.div_eucl (Z.pos t * 2 ^ 53) (Z.pos t)) as [q r].
  simpl in Hq, Hr. subst q r.
  unfold new_location, new_location_even, new_location_odd.
  change (0 =? 0) with true. cbv iota.
  destruct (IntDef.Z.even (Z.pos t)); reflexivity.
Qed.

(** A percentage is the float of a mantissa that is not negative. *)
Lemma percentage_nonneg count total :
  0 ≤ count ≤ total → 0 < total → (0 <= F2Q (percentage count total))%Q.
Proof.
  intros Hcount Htotal.
  destruct total as [|t|t]; [lia| |lia].
  unfold percentage. simpl Z.to_pos.
  destruct count as [|c|c]; [| |lia].
  - rewrite float_of_int_100. simpl. lra.
  - destruct (true_divide_value c t 1 ltac:(change (2 ^ 1) with 2; lia)
                ltac:(lia)) as (m & e & Hq & Hm & He & _).
    rewrite Hq.
    destruct (mul_100_value m e Hm ltac:(lia))
      as (m' & e' & Hx & Hm' & He' & _).
    rewrite Hx.
    destruct (round_1_value m' e' Hm' ltac:(lia))
      as (m'' & e'' & Hp & Hm'' & _).
    rewrite Hp.
    destruct m'' as [|p|p]; [simpl; lra| |lia].
    simpl. pose proof (pow2_pos e'') as Hpos.
    assert (0 < inject_Z (Z.pos p))%Q as Hp0
      by (change 0%Q with (inject_Z 0); rewrite <- Zlt_Qlt; lia).
    nra.
Qed.

(** X25: the percentage of a category that holds every task of a group
    is the float 100.0, and that of a category that holds none is 0.0,
    exactly. *)
Theorem percentage_extremes (total : Z) :
  0 < total →
  percentage total total = float_of_int 100
  ∧ percentage 0 total = S754_zero false.
Proof.
  intros Htotal. destruct total as [|t|t]; [lia| |lia].
  unfold percentage. simpl Z.to_pos. split.
  - rewrite true_divide_self. vm_compute. reflexivity.
  - reflexivity.
Qed.

Lemma percentage_extremes_witness :
  percentage 3 3 = float_of_int 100 ∧ percentage 0 3 = S754_zero false.
Proof.
  apply (percentage_extremes 3). lia.
Defined.

(** X26: a percentage is a finite float that is not negative and
    within 0.051 of the exact percentage [100 * count / total]. *)
Theorem percentage_accuracy (count total : Z) :
  0 ≤ count ≤ total →
  0 < total →
  is_finite (percentage count total) = true
  ∧ (0 <= F2Q (percentage count total))%Q
  ∧ (Qabs (F2Q (percentage count total)
           - inject_Z (100 * count) / inject_Z total) <= 51 # 1000)%Q.
Proof.
  intros Hcount Htotal.
  destruct (percentage_value count total Hcount Htotal) as [Hfinite Hvalue].
  split; [exact Hfinite|].
  split; [apply percentage_nonneg; assumption|].
  apply Qabs_Qle_condition. split; lra.
Qed.

Lemma percentage_accuracy_witness :
  is_finite (percentage 1 3) = true
  ∧ (0 <= F2Q (percentage 1 3))%Q
  ∧ (Qabs (F2Q (percentage 1 3) - inject_Z (100 * 1) / inject_Z 3)
     <= 51 # 1000)%Q.
Proof.
  apply (percentage_accuracy 1 3); lia.
Defined.

(** ** The credentials of the module *)

Lemma falsy_false (value : option string) :
  falsy value = false ↔ ∃ s, value = Some s ∧ s ≠ "".
Proof.
  destruct value as [s|]; simpl.
  - rewrite bool_decide_eq_false. split; [eauto|].
    intros (s' & [= <-] & Hs). exact Hs.
  - split; [discriminate|]. intros (s & Hs & _). discriminate.
Qed.

(** X27: the module loads exactly when each of the four variables is
    set to a string that is not empty. *)
Theorem credentials_are_all_required (environ : gmap string string) :
  (∃ credentials, load_credentials environ = Ok credentials)
  ↔ ∀ name, name ∈ required_vars →
            ∃ value, environ !! name = Some value ∧ value ≠ "".
Proof.
  unfold required_vars. setoid_rewrite <- falsy_false.
  unfold load_credentials. cbv zeta. split.
  - intros [credentials Hok] name Hin.
    destruct (falsy (environ !! "ODOO_URL")) eqn:Hurl,
      (falsy (environ !! "ODOO_DB")) eqn:Hdb,
      (falsy (environ !! "ODOO_USERNAME")) eqn:Husername,
      (falsy (environ !! "ODOO_API_KEY")) eqn:Hkey; try discriminate.
    repeat (apply elem_of_cons in Hin as [->|Hin]; [assumption|]).
    apply elem_of_nil in Hin. destruct Hin.
  - intros Hall.
    rewrite (Hall "ODOO_URL"), (Hall "ODOO_DB"), (Hall "ODOO_USERNAME"),
      (Hall "ODOO_API_KEY"); [simpl; eauto|..];
      repeat first [left|right].
Qed.

Lemma credentials_are_all_required_witness :
  ¬ ∃ credentials, load_credentials sample_environ = Ok credentials.
Proof.
  intros Hloaded.
  destruct (proj1 (credentials_are_all_required sample_environ) Hloaded
              "ODOO_DB") as (value & Hvalue & Hne).
  - right. left.
  - vm_compute in Hvalue. injection Hvalue as <-. apply Hne. reflexivity.
Defined.

(** X28: when the module does not load, the message of its [ValueError]
    lists the variables that are unset or empty, each once, separated by
    [", "], in the order [ODOO_URL], [ODOO_DB], [ODOO_USERNAME],
    [ODOO_API_KEY]. *)
Theorem missing_credentials_are_listed (environ : gmap string string)
    (msg : string) :
  load_credentials environ = Raise msg →
  let missing :=
    filter (λ name, falsy (environ !! name) = true) required_vars in
  missing ≠ []
  ∧ msg = "Missing required environment variables: "
          +:+ String.concat ", " missing.
Proof.
  unfold load_credentials, required_vars. cbv zeta.
  rewrite !filter_cons, filter_nil.
  destruct (falsy (environ !! "ODOO_URL")),
    (falsy (environ !! "ODOO_DB")),
    (falsy (environ !! "ODOO_USERNAME")),
    (falsy (environ !! "ODOO_API_KEY")); simpl;
    intros [= <-]; split; (discriminate || reflexivity).
Qed.

Lemma missing_credentials_are_listed_witness :
  filter (λ name, falsy (sample_environ !! name) = true) required_vars ≠ []
  ∧ "Missing required environment variables: ODOO_DB, ODOO_API_KEY"
    = "Missing required environment variables: "
      +:+ String.concat ", "
            (filter (λ name, falsy (sample_environ !! name) = true)
               required_vars).
Proof.
  apply (missing_credentials_are_listed sample_environ).
  vm_compute. reflexivity.
Defined.

(** ** The reply that [json_rpc] reads *)

(** X29: [json_rpc] sends its request once, whatever comes of it. It
    returns exactly when the POST returns a response whose status is not
    an error and whose body is JSON without an ['error'] member and with a
    ['result'] member, and then it returns that member. A body with an
    ['error'] member raises [Exception("JSON-RPC call failed.")], with or
    without a ['result'] member. *)
Theorem json_rpc_returns_the_result_member {A} (req : request)
    (posted : result (reply A)) (trace : list request) :
  let run := json_rpc req (read_reply posted) trace in
  run.2 = trace ++ [req]
  ∧ (∀ r,
       run.1 = Ok r
       ↔ ∃ response data,
           posted = Ok response
           ∧ raise_for_status response = None
           ∧ json response = Ok data
           ∧ data !! "error" = None
           ∧ data !! "result" = Some r)
  ∧ (∀ response data,
       posted = Ok response →
       raise_for_status response = None →
       json response = Ok data →
       is_Some (data !! "error") →
       run.1 = Raise "JSON-RPC call failed.").
Proof.
  cbv zeta. split; [reflexivity|]. split.
  - intros r. split.
    + unfold read_reply, json_rpc. simpl.
      destruct posted as [response|]; [|discriminate].
      destruct (raise_for_status response) eqn:Hstatus; [discriminate|].
      destruct (json response) as [data|] eqn:Hjson; [|discriminate].
      destruct (decide (is_Some (data !! "error"))) as [|Herror];
        [discriminate|].
      destruct (data !! "result") as [r'|] eqn:Hresult; [|discriminate].
      intros [= <-]. exists response, data.
      rewrite <- eq_None_not_Some in Herror. auto.
    + intros (response & data & -> & Hstatus & Hjson & Herror & Hresult).
      unfold read_reply, json_rpc. simpl.
      rewrite Hstatus, Hjson, Hresult.
      destruct (decide (is_Some (data !! "error"))) as [Hsome|];
        [|reflexivity].
      rewrite Herror in Hsome. destruct (is_Some_None Hsome).
  - intros response data -> Hstatus Hjson Herror.
    unfold read_reply, json_rpc. simpl. rewrite Hstatus, Hjson.
    rewrite decide_True by exact Herror. reflexivity.
Qed.

Lemma json_rpc_returns_the_result_member_witness :
  (json_rpc Authenticate (read_reply (Ok error_reply)) []).1
  = Raise "JSON-RPC call failed.".
Proof.
  apply (proj2 (proj2 (json_rpc_returns_the_result_member Authenticate
                         (Ok error_reply) []))
           error_reply (<["error" := 0]> (<["result" := 7]> ∅)));
    try reflexivity.
  vm_compute. eauto.
Defined.

(** ** Requests and the clock *)

(** X30: the requests of a run depend on the backend alone: they are the
    same at any time of the clock and whatever [fromisoformat] accepts,
    since every request is sent before the first task is processed. *)
Theorem requests_do_not_depend_on_the_clock (runtime runtime' : PyRuntime)
    (remote : Remote) (current_time current_time' : datetime) :
  (@get_tasks_data runtime remote current_time).2
  = (@get_tasks_data runtime' remote current_time').2.
Proof.
  unfold get_tasks_data, try_body, mbind, rpc_mbind, rpc_bind, json_rpc, lift.
  destruct (authenticate remote) as [| | | | |[uid|]]; simpl; try reflexivity.
  destruct (uid =? 0); simpl; [reflexivity|].
  destruct (search_read_tasks remote uid) as [| | | | |tasks]; simpl;
    try reflexivity.
  destruct (fetch_related remote uid tasks _)
    as [[[[[projects users] task_stages] project_stages]|msg] trace];
    simpl; [|reflexivity].
  destruct (@process runtime _ _ _ _ _ _), (@process runtime' _ _ _ _ _ _);
    reflexivity.
Qed.
